(** * AI-Comprovantes: the PIX receipt pipeline

    A shallow embedding of [processPixReceipt.ts] and [planilha.ts]
    (normalizeText, getColumnFromOffset, marcarComprovanteNaAbaMain, planilha,
    capitalizeName, getCurrentMonthName, processPixReceipt) and of the
    constants of [config.ts] they read.

    JavaScript strings are sequences of UTF-16 code units, written here as
    [list Z]; remote calls (Sheets, Drive, the classifier) are the operations
    of a small free monad, so that a program is the tree of calls it may make
    and every property is stated over every way the remote side can answer.

    Further on come [read_image.ts], the environment that [config.ts]
    reads, [google-auth.ts] and the handlers of [whatsapp.ts], with the
    properties of theirs that the code shows. *)

From Stdlib Require Import String Ascii ZArith List Bool Lia.
From ExtLib Require Import Structures.Monad.
Import ListNotations.
Import MonadNotation.

Local Open Scope Z_scope.
Local Open Scope monad_scope.

(* ================================================================== *)
(** * JavaScript strings *)
(* ================================================================== *)

Module JS.

(** A string is its sequence of UTF-16 code units. *)
Definition jsstring := list Z.

Definition byte_of (a : ascii) : Z := Z.of_N (N_of_ascii a).

Fixpoint bytes_of (s : string) : list Z :=
  match s with
  | EmptyString => []
  | String a r => byte_of a :: bytes_of r
  end.

(** One code point as UTF-16: itself in the basic plane, a surrogate pair
    above it. *)
Definition utf16 (cp : Z) : list Z :=
  if cp <? 65536 then [cp]
  else [55296 + (cp - 65536) / 1024; 56320 + (cp - 65536) mod 1024].

(** Literals of this file are written as UTF-8 text and decoded. *)
Fixpoint decode (bs : list Z) : jsstring :=
  match bs with
  | [] => []
  | b0 :: r0 =>
    if b0 <? 128 then b0 :: decode r0
    else
      match r0 with
      | [] => []
      | b1 :: r1 =>
        if b0 <? 224 then ((b0 mod 32) * 64 + b1 mod 64) :: decode r1
        else
          match r1 with
          | [] => []
          | b2 :: r2 =>
            if b0 <? 240
            then ((b0 mod 16) * 4096 + (b1 mod 64) * 64 + b2 mod 64) :: decode r2
            else
              match r2 with
              | [] => []
              | b3 :: r3 =>
                utf16 ((b0 mod 8) * 262144 + (b1 mod 64) * 4096
                       + (b2 mod 64) * 64 + b3 mod 64) ++ decode r3
              end
          end
      end
  end.

Definition js (s : string) : jsstring := decode (bytes_of s).

Fixpoint eqb (s t : jsstring) : bool :=
  match s, t with
  | [], [] => true
  | x :: s', y :: t' => (x =? y) && eqb s' t'
  | _, _ => false
  end.

(** [s.startsWith(p)] *)
Fixpoint startsWith (s p : jsstring) : bool :=
  match p, s with
  | [], _ => true
  | x :: p', y :: s' => (x =? y) && startsWith s' p'
  | _ :: _, [] => false
  end.

(** [s.includes(sub)] *)
Fixpoint includes (s sub : jsstring) : bool :=
  startsWith s sub ||
  match s with
  | [] => false
  | _ :: s' => includes s' sub
  end.

(** [s.slice(0, n)], [s.slice(1)] and [s.charAt(0)] for the constant
    arguments the source uses. *)
Definition slice_to (n : nat) (s : jsstring) : jsstring := firstn n s.
Definition slice_from (n : nat) (s : jsstring) : jsstring := skipn n s.
Definition charAt0 (s : jsstring) : jsstring := firstn 1 s.

(** [s.split(sep)] for a separator of one code unit; the result is never
    empty. *)
Fixpoint split (sep : Z) (s : jsstring) : list jsstring :=
  match s with
  | [] => [[]]
  | c :: r =>
    if c =? sep then [] :: split sep r
    else
      match split sep r with
      | w :: ws => (c :: w) :: ws
      | [] => [[c]]
      end
  end.

(** [parts.join(sep)] *)
Fixpoint join (sep : jsstring) (parts : list jsstring) : jsstring :=
  match parts with
  | [] => []
  | [w] => w
  | w :: ws => w ++ sep ++ join sep ws
  end.

(** White space and line terminators, as [String.prototype.trim] removes. *)
Definition isWhiteSpace (c : Z) : bool :=
  ((9 <=? c) && (c <=? 13)) || (c =? 32) || (c =? 160) || (c =? 5760)
  || ((8192 <=? c) && (c <=? 8202)) || (c =? 8232) || (c =? 8233)
  || (c =? 8239) || (c =? 8287) || (c =? 12288) || (c =? 65279).

Fixpoint trimStart (s : jsstring) : jsstring :=
  match s with
  | [] => []
  | c :: r => if isWhiteSpace c then trimStart r else s
  end.

Definition trim (s : jsstring) : jsstring := rev (trimStart (rev (trimStart s))).

(** [s.replace(/[\u0300-\u036f]/g, EMPTY)]: the combining diacritical marks are
    removed. *)
Definition isCombiningMark (c : Z) : bool := (768 <=? c) && (c <=? 879).
Definition stripMarks (s : jsstring) : jsstring :=
  filter (fun c => negb (isCombiningMark c)) s.

(** [s.replace(/c/g, by)] for one code unit [c]. *)
Definition replaceAll (c : Z) (by_ : jsstring) (s : jsstring) : jsstring :=
  flat_map (fun x => if x =? c then by_ else [x]) s.

(** [String.fromCharCode(n)]: the code unit is [n] modulo 2^16. *)
Definition fromCharCode (n : Z) : jsstring := [n mod 65536].

(** [\w] of a regular expression without the unicode flag. *)
Definition isWordChar (c : Z) : bool :=
  ((48 <=? c) && (c <=? 57)) || ((65 <=? c) && (c <=? 90))
  || (c =? 95) || ((97 <=? c) && (c <=? 122)).

(** Decimal digits of a non-negative integer, as a template literal prints a
    row number. *)
Fixpoint digits (fuel : nat) (n : Z) (acc : jsstring) : jsstring :=
  match fuel with
  | O => acc
  | S f =>
    let acc' := (48 + n mod 10) :: acc in
    if n <? 10 then acc' else digits f (n / 10) acc'
  end.

Definition numberToString (n : Z) : jsstring :=
  if n <? 0 then 45 :: digits (S (Z.to_nat (Z.log2 (- n)))) (- n) []
  else digits (S (Z.to_nat (Z.log2 n))) n [].

(** The tables of the JavaScript runtime that the source calls and does not
    define: canonical decomposition and the case mappings. *)
Class Unicode := {
  normalizeNFD : jsstring -> jsstring;
  toLowerCase : jsstring -> jsstring;
  toUpperCase : jsstring -> jsstring
}.

End JS.
Import JS.

(* ================================================================== *)
(** * The runtime tables on Latin-1 *)
(* ================================================================== *)

(** The Unicode tables restricted to U+0000..U+00FF, which covers Portuguese
    names and month names. It is the instance the concrete examples run on;
    the general theorems hold for any tables. *)
Module Latin1.

(** Canonical decompositions of U+00C0..U+00DF: base letter and mark. *)
Definition upperTable : list (option (Z * Z)) :=
  [ Some (65, 768); Some (65, 769); Some (65, 770); Some (65, 771);
    Some (65, 776); Some (65, 778); None;           Some (67, 807);
    Some (69, 768); Some (69, 769); Some (69, 770); Some (69, 776);
    Some (73, 768); Some (73, 769); Some (73, 770); Some (73, 776);
    None;           Some (78, 771); Some (79, 768); Some (79, 769);
    Some (79, 770); Some (79, 771); Some (79, 776); None;
    None;           Some (85, 768); Some (85, 769); Some (85, 770);
    Some (85, 776); Some (89, 769); None;           None ].

Definition decompose (c : Z) : jsstring :=
  if (192 <=? c) && (c <=? 223) then
    match nth (Z.to_nat (c - 192)) upperTable None with
    | Some (b, m) => [b; m]
    | None => [c]
    end
  else if (224 <=? c) && (c <=? 254) then
    match nth (Z.to_nat (c - 224)) upperTable None with
    | Some (b, m) => [b + 32; m]
    | None => [c]
    end
  else if c =? 255 then [121; 776]
  else [c].

Definition lower1 (c : Z) : Z :=
  if ((65 <=? c) && (c <=? 90))
     || ((192 <=? c) && (c <=? 222) && negb (c =? 215))
  then c + 32 else c.

Definition upper1 (c : Z) : jsstring :=
  if ((97 <=? c) && (c <=? 122))
     || ((224 <=? c) && (c <=? 254) && negb (c =? 247))
  then [c - 32]
  else if c =? 223 then [83; 83]
  else if c =? 255 then [376]
  else if c =? 181 then [924]
  else [c].

#[export] Instance tables : Unicode := {
  normalizeNFD := flat_map decompose;
  toLowerCase := map lower1;
  toUpperCase := flat_map upper1
}.

End Latin1.

(* ================================================================== *)
(** * config.ts *)
(* ================================================================== *)

(** The values read from the environment. *)
Record Config := {
  spreadsheetId : jsstring;
  folderId : jsstring;
  sheetName : jsstring;
  mainSheetName : jsstring;
  nameStartRow : Z;
  nameEndRow : Z;
  formulaSeparator : jsstring
}.

(** The constants of SPREADSHEET_CONFIG. *)
Definition nameColumn : jsstring := js "A".
Definition headerRow : Z := 1.
Definition monthStartColumn : jsstring := js "B".
Definition monthEndColumn : jsstring := js "L".

Definition nameRange (cfg : Config) : jsstring :=
  nameColumn ++ numberToString (nameStartRow cfg) ++ js ":"
  ++ nameColumn ++ numberToString (nameEndRow cfg).

Definition headerRange : jsstring :=
  monthStartColumn ++ numberToString headerRow ++ js ":"
  ++ monthEndColumn ++ numberToString headerRow.

(** The defaults of [optionalEnv], with the two required identifiers given. *)
Definition defaultConfig (sheet folder : jsstring) : Config := {|
  spreadsheetId := sheet;
  folderId := folder;
  sheetName := js "Comprovantes";
  mainSheetName := js "Main";
  nameStartRow := 2;
  nameEndRow := 29;
  formulaSeparator := js ";"
|}.

(* ================================================================== *)
(** * Pure functions of planilha.ts and processPixReceipt.ts *)
(* ================================================================== *)

(** [Array.prototype.findIndex]: the first index whose element satisfies
    [p], or -1. *)
Fixpoint findIndexFrom {A} (p : A -> bool) (l : list A) (i : Z) : Z :=
  match l with
  | [] => -1
  | x :: r => if p x then i else findIndexFrom p r (i + 1)
  end.

Definition findIndex {A} (p : A -> bool) (l : list A) : Z := findIndexFrom p l 0.

(** A cell of a read range: a string, or null. The source reads with the
    default render option, under which Sheets answers with the formatted text
    of every cell. [orEmpty c] is [c ?? EMPTY]. *)
Definition cell := option jsstring.
Definition orEmpty (c : cell) : jsstring :=
  match c with Some s => s | None => [] end.

(** JavaScript truthiness of a string that may be undefined. *)
Definition truthy (v : option jsstring) : bool :=
  match v with
  | Some (_ :: _) => true
  | _ => false
  end.

(** [getColumnFromOffset]; [charCodeAt(0)] of an empty string is NaN, which
    [fromCharCode] reads as 0. *)
Definition getColumnFromOffset (offset : Z) : jsstring :=
  match monthStartColumn with
  | startColCode :: _ => fromCharCode (startColCode + offset)
  | [] => fromCharCode 0
  end.

Section Text.
Context {U : Unicode}.

Definition normalizeText (text : jsstring) : jsstring :=
  trim (toLowerCase (stripMarks (normalizeNFD text))).

(** The row lookup of [planilha] and of [marcarComprovanteNaAbaMain]. *)
Definition findRow (names : list cell) (nome : jsstring) : Z :=
  let nomeNormalizado := normalizeText nome in
  findIndex (fun n => eqb (normalizeText (orEmpty n)) nomeNormalizado) names.

(** The column lookup of [planilha], on the sheet of receipts. *)
Definition findColumn (headers : list cell) (mes : jsstring) : Z :=
  findIndex
    (fun h => includes (orEmpty h) mes && includes (orEmpty h) (js "Comp"))
    headers.

(** The column lookup of [marcarComprovanteNaAbaMain], on the main sheet. *)
Definition findColumnMain (headers : list cell) (mes : jsstring) : Z :=
  findIndex
    (fun h => includes (normalizeText (orEmpty h)) (normalizeText mes))
    headers.

Definition capitalizeName (name : jsstring) : jsstring :=
  join (js " ")
    (map (fun word => toUpperCase (charAt0 word) ++ slice_from 1 word)
         (split 32 (toLowerCase name))).

(** [getCurrentMonthName], given what [toLocaleString] returned. *)
Definition capitalizeMonth (month : jsstring) : jsstring :=
  match month with
  | c :: r => if isWordChar c then toUpperCase [c] ++ r else month
  | [] => []
  end.

(** Step 4 of [processPixReceipt]: the name of the file. *)
Definition nomeFormatado (nomeCapitalizado mes extension : jsstring) : jsstring :=
  let primeiroNome := hd [] (split 32 nomeCapitalizado) in
  let mesAbrev := slice_to 3 mes in
  let ext :=
    if startsWith extension (js ".") then extension
    else js "." ++ extension in
  primeiroNome ++ js "_" ++ mesAbrev ++ ext.

End Text.

(* ================================================================== *)
(** * Remote calls and programs *)
(* ================================================================== *)

Definition Buffer := list Byte.byte.

(** A thrown value: an [Error] with its message (what [read_image], [planilha]
    and the Google clients throw), or anything else, with the string
    [String(error)] makes of it. *)
Inductive Thrown :=
| ErrorObj (message : jsstring)
| NonError (text : jsstring).

(** [error instanceof Error ? error.message : String(error)] *)
Definition errorMessage (error : Thrown) : jsstring :=
  match error with
  | ErrorObj message => message
  | NonError text => text
  end.

(** What [values.update] writes: the formula, or the boolean mark. *)
Inductive CellValue :=
| VString (s : jsstring)
| VBool (b : bool).

(** A file of a Drive response, with the two fields the source asks for. *)
Record DriveFile := {
  file_id : option jsstring;
  webViewLink : option jsstring
}.

(** The calls that leave the process. The spreadsheet identifier is the same
    in every Sheets call and is left out. *)
Inductive Op :=
| ReadImage (image : Buffer) (mimeType : jsstring)
| ToLocaleMonth
| ReadFile (path : jsstring)
| GetAuthClient
| SheetsGet (range : jsstring)
| SheetsUpdate (range : jsstring) (value : CellValue)
| DriveList (q : jsstring)
| DriveCreate (name parent mimeType : jsstring) (body : Buffer).

(** What each call resolves to: [data.values] of a read may be undefined, and
    so may [data.files] of a search. *)
Definition resp (op : Op) : Type :=
  match op with
  | ReadImage _ _ => jsstring
  | ToLocaleMonth => jsstring
  | ReadFile _ => Buffer
  | GetAuthClient => unit
  | SheetsGet _ => option (list (list cell))
  | SheetsUpdate _ _ => unit
  | DriveList _ => option (list DriveFile)
  | DriveCreate _ _ _ _ => DriveFile
  end.

(** A call either throws (the promise rejects) or resolves. *)
Definition outcome (R : Type) : Type := (Thrown + R)%type.

Inductive Prog (A : Type) : Type :=
| Ret (a : A)
| Throw (e : Thrown)
| Vis (op : Op) (k : outcome (resp op) -> Prog A).

Arguments Ret {A} a.
Arguments Throw {A} e.
Arguments Vis {A} op k.

Fixpoint bindProg {A B} (p : Prog A) (f : A -> Prog B) : Prog B :=
  match p with
  | Ret a => f a
  | Throw e => Throw e
  | Vis op k => Vis op (fun o => bindProg (k o) f)
  end.

#[export] Instance Monad_Prog : Monad Prog := {
  ret := @Ret;
  bind := @bindProg
}.

(** [await op]: a rejection is thrown at the call. *)
Definition call (op : Op) : Prog (resp op) :=
  Vis op (fun o => match o with inl e => Throw e | inr r => Ret r end).

(** [await Promise.all([a, b])]: both requests are sent before either answer
    is looked at; a rejection of either is thrown (of the first, should both
    reject). *)
Definition promiseAll2 (a b : Op) : Prog (resp a * resp b) :=
  Vis a (fun oa =>
  Vis b (fun ob =>
    match oa, ob with
    | inr x, inr y => Ret (x, y)
    | inl e, _ => Throw e
    | inr _, inl e => Throw e
    end)).

(** [try { p } catch (error) { h error }] *)
Fixpoint tryCatch {A} (p : Prog A) (h : Thrown -> Prog A) : Prog A :=
  match p with
  | Ret a => Ret a
  | Throw e => h e
  | Vis op k => Vis op (fun o => tryCatch (k o) h)
  end.

(** One call of an execution with its answer, and how a remote side answers:
    a state and, for each call, an answer and the next state. *)
Record Event := Ev { ev_op : Op; ev_out : outcome (resp ev_op) }.

Definition handler (S : Type) : Type := forall op : Op, S -> outcome (resp op) * S.

Definition result {S A} (x : outcome A * S * list Event) : outcome A := fst (fst x).
Definition final {S A} (x : outcome A * S * list Event) : S := snd (fst x).
Definition trace {S A} (x : outcome A * S * list Event) : list Event := snd x.

(** An execution: the result, the final state of the remote side, and the
    calls made, in order. *)
Fixpoint run {S A} (h : handler S) (p : Prog A) (s : S)
  : outcome A * S * list Event :=
  match p with
  | Ret a => (inr a, s, [])
  | Throw e => (inl e, s, [])
  | Vis op k =>
    let answer := h op s in
    let rest := run h (k (fst answer)) (snd answer) in
    (result rest, final rest, Ev op (fst answer) :: trace rest)
  end.

(** Classes of calls, for counting them in a trace. *)
Definition isDriveCall (e : Event) : bool :=
  match ev_op e with
  | DriveList _ | DriveCreate _ _ _ _ => true
  | _ => false
  end.

Definition isDriveCreate (e : Event) : bool :=
  match ev_op e with
  | DriveCreate _ _ _ _ => true
  | _ => false
  end.

Definition isSheetsCall (e : Event) : bool :=
  match ev_op e with
  | SheetsGet _ | SheetsUpdate _ _ => true
  | _ => false
  end.

Definition isSheetsUpdate (e : Event) : bool :=
  match ev_op e with
  | SheetsUpdate _ _ => true
  | _ => false
  end.

(** The reads of a trace, in order, each with its range and its answer. *)
Fixpoint sheetReads (tr : list Event)
  : list (jsstring * outcome (option (list (list cell)))) :=
  match tr with
  | [] => []
  | Ev (SheetsGet range) o :: r => (range, o) :: sheetReads r
  | _ :: r => sheetReads r
  end.

(* ================================================================== *)
(** * planilha.ts *)
(* ================================================================== *)

Record ReceiptUpload := {
  fileName : jsstring;
  buffer : Buffer;
  mimeType : option jsstring
}.

(** [receipt.mimeType ?? "image/jpeg"] *)
Definition receiptMime (receipt : ReceiptUpload) : jsstring :=
  match mimeType receipt with
  | Some m => m
  | None => js "image/jpeg"
  end.

Definition dq : jsstring := [34].

(** [path.basename] on a POSIX path: the last component, trailing slashes
    apart. *)
Fixpoint dropSlashes (s : jsstring) : jsstring :=
  match s with
  | [] => []
  | c :: r => if c =? 47 then dropSlashes r else s
  end.

Definition basename (path : jsstring) : jsstring :=
  last (split 47 (rev (dropSlashes (rev path)))) [].

(** [namesResponse.data.values?.flat() ?? []] *)
Definition flatValues (values : option (list (list cell))) : list cell :=
  match values with
  | Some rows => concat rows
  | None => []
  end.

(** [headersResponse.data.values?.[0] ?? []] *)
Definition firstRow (values : option (list (list cell))) : list cell :=
  match values with
  | Some (row :: _) => row
  | _ => []
  end.

(** [cellCheckResponse.data.values?.[0]?.[0]] *)
Definition firstCell (values : option (list (list cell))) : option jsstring :=
  match values with
  | Some ((c :: _) :: _) => c
  | _ => None
  end.

(** [existingValue && existingValue !== EMPTY] *)
Definition hasReceipt (existingValue : option jsstring) : bool :=
  truthy existingValue
  && match existingValue with
     | Some s => negb (eqb s [])
     | None => true
     end.

(** The [q] of [drive.files.list]. *)
Definition driveQuery (fileName folder : jsstring) : jsstring :=
  js "name='" ++ replaceAll 39 [92; 39] fileName ++ js "' and '" ++ folder
  ++ js "' in parents and trashed=false".

Definition hyperlinkFormula (separator fileLink fileName : jsstring) : jsstring :=
  let escapedLink := replaceAll 34 [34; 34] fileLink in
  let escapedFileName := replaceAll 34 [34; 34] fileName in
  js "=HYPERLINK(" ++ dq ++ escapedLink ++ dq ++ separator
  ++ dq ++ escapedFileName ++ dq ++ js ")".

Definition errConfig : Thrown :=
  ErrorObj (js "GOOGLE_SHEET_ID e GOOGLE_DRIVE_FOLDER_ID não configurados no .env").

Definition errNoMonth : Thrown :=
  ErrorObj (js "Mês não informado para upload de comprovante").

Definition errRowNotFound (cfg : Config) (nome : jsstring) : Thrown :=
  ErrorObj (js "Nome " ++ dq ++ nome ++ dq ++ js " não encontrado na coluna "
            ++ nameColumn ++ js " (linhas " ++ numberToString (nameStartRow cfg)
            ++ js "-" ++ numberToString (nameEndRow cfg) ++ js ")").

Definition errColumnNotFound (mes : jsstring) : Thrown :=
  ErrorObj (js "Coluna " ++ dq ++ js "Comp - " ++ mes ++ dq
            ++ js " não encontrada nos cabeçalhos (" ++ headerRange ++ js ")").

Definition errDuplicate (nome mes targetCell existingValue : jsstring) : Thrown :=
  ErrorObj (js "Comprovante já existe para " ++ nome ++ js " em " ++ mes
            ++ js ". Célula " ++ targetCell ++ js " já contém: " ++ existingValue).

Definition errExistingFile (fileName : jsstring) : Thrown :=
  ErrorObj (js "Arquivo existente no Drive sem dados suficientes (id/link): "
            ++ fileName).

Definition errNoLink : Thrown :=
  ErrorObj (js "Falha ao obter link do arquivo no Drive").

Definition errMainRowNotFound (cfg : Config) (nome : jsstring) : Thrown :=
  ErrorObj (js "Nome " ++ dq ++ nome ++ dq ++ js " não encontrado na aba "
            ++ mainSheetName cfg ++ js " (coluna " ++ nameColumn ++ js ", linhas "
            ++ numberToString (nameStartRow cfg) ++ js "-"
            ++ numberToString (nameEndRow cfg) ++ js ")").

Definition errMainColumnNotFound (cfg : Config) (mes : jsstring) : Thrown :=
  ErrorObj (js "Mês " ++ dq ++ mes ++ dq
            ++ js " não encontrado nos cabeçalhos da aba "
            ++ mainSheetName cfg ++ js " (" ++ headerRange ++ js ")").

Section Planilha.
Context {U : Unicode}.
Variable cfg : Config.

Definition marcarComprovanteNaAbaMain (nome mes : jsstring) : Prog unit :=
  let mainNameRange := mainSheetName cfg ++ js "!" ++ nameRange cfg in
  let mainHeaderRange := mainSheetName cfg ++ js "!" ++ headerRange in
  responses <- promiseAll2 (SheetsGet mainNameRange) (SheetsGet mainHeaderRange) ;;
  let mainNames := flatValues (fst responses) in
  let mainHeaders := firstRow (snd responses) in
  let mainNomeIndex := findRow mainNames nome in
  if mainNomeIndex =? -1 then Throw (errMainRowNotFound cfg nome)
  else
    let mainMonthIndex := findColumnMain mainHeaders mes in
    if mainMonthIndex =? -1 then Throw (errMainColumnNotFound cfg mes)
    else
      let mainRow := mainNomeIndex + nameStartRow cfg in
      let mainCol := getColumnFromOffset mainMonthIndex in
      let mainCell := mainSheetName cfg ++ js "!" ++ mainCol
                      ++ numberToString mainRow in
      call (SheetsUpdate mainCell (VBool true)).

(** The find-or-create of the receipt's file (lines 319-362 of the source,
    written inline in [planilha]): the file's id and link. *)
Definition upsert (receipt : ReceiptUpload)
  : Prog (option jsstring * jsstring) :=
  searchResponse <- call (DriveList (driveQuery (fileName receipt) (folderId cfg))) ;;
  match searchResponse with
  | Some (existingFile :: _) =>
    if negb (truthy (file_id existingFile))
       || negb (truthy (webViewLink existingFile))
    then Throw (errExistingFile (fileName receipt))
    else Ret (file_id existingFile,
              match webViewLink existingFile with Some l => l | None => [] end)
  | _ =>
    uploadResponse <-
      call (DriveCreate (fileName receipt) (folderId cfg)
              (receiptMime receipt) (buffer receipt)) ;;
    match webViewLink uploadResponse with
    | Some (c :: l) => Ret (file_id uploadResponse, c :: l)
    | _ => Throw errNoLink
    end
  end.

(** The two shapes of the arguments: a path and a month, or a receipt in
    memory and a month. *)
Definition resolveArguments (arg2 : jsstring + ReceiptUpload)
    (arg3 customFileName : option jsstring)
  : Prog (jsstring * ReceiptUpload) :=
  match arg2 with
  | inl imgPath =>
    if negb (truthy arg3) then Throw errNoMonth
    else
      buffer <- call (ReadFile imgPath) ;;
      Ret (match arg3 with Some m => m | None => [] end,
           {| fileName := match customFileName with
                          | Some n => n
                          | None => basename imgPath
                          end;
              buffer := buffer;
              mimeType := Some (js "image/jpeg") |})
  | inr receipt =>
    if negb (truthy arg3) then Throw errNoMonth
    else Ret (match arg3 with Some m => m | None => [] end, receipt)
  end.

(** What [planilha] does once the month and the receipt are known. *)
Definition registrar (nome mes : jsstring) (receipt : ReceiptUpload) : Prog unit :=
  _ <- call GetAuthClient ;;
  let nameRange := sheetName cfg ++ js "!" ++ nameRange cfg in
  let headerRange := sheetName cfg ++ js "!" ++ headerRange in
  responses <- promiseAll2 (SheetsGet nameRange) (SheetsGet headerRange) ;;
  let names := flatValues (fst responses) in
  let headers := firstRow (snd responses) in
  let nomeIndex := findRow names nome in
  if nomeIndex =? -1 then Throw (errRowNotFound cfg nome)
  else
    let nomeRow := nomeIndex + nameStartRow cfg in
    let colIndex := findColumn headers mes in
    if colIndex =? -1 then Throw (errColumnNotFound mes)
    else
      let targetCol := getColumnFromOffset colIndex in
      let targetCell := sheetName cfg ++ js "!" ++ targetCol
                        ++ numberToString nomeRow in
      cellCheckResponse <- call (SheetsGet targetCell) ;;
      let existingValue := firstCell cellCheckResponse in
      if hasReceipt existingValue
      then Throw (errDuplicate nome mes targetCell (orEmpty existingValue))
      else
        file <- upsert receipt ;;
        let hyperlink :=
          hyperlinkFormula (formulaSeparator cfg) (snd file) (fileName receipt) in
        _ <- call (SheetsUpdate targetCell (VString hyperlink)) ;;
        marcarComprovanteNaAbaMain nome mes.

Definition planilha (nome : jsstring) (arg2 : jsstring + ReceiptUpload)
    (arg3 customFileName : option jsstring) : Prog unit :=
  if negb (truthy (Some (spreadsheetId cfg)))
     || negb (truthy (Some (folderId cfg)))
  then Throw errConfig
  else
    tryCatch
      (args <- resolveArguments arg2 arg3 customFileName ;;
       registrar nome (fst args) (snd args))
      (fun error => Throw error).

End Planilha.

(* ================================================================== *)
(** * processPixReceipt.ts *)
(* ================================================================== *)

Record PixReceiptInput := {
  imageBuffer : Buffer;
  extension : jsstring;
  inputMimeType : option jsstring
}.

Inductive Reason := NotPix | ReasonError.

Record ProcessResult := {
  res_success : bool;
  res_reason : option Reason;
  res_error : option jsstring;
  res_nome : option jsstring;
  res_mes : option jsstring;
  res_fileName : option jsstring
}.

Definition notPixResult : ProcessResult :=
  {| res_success := false; res_reason := Some NotPix; res_error := None;
     res_nome := None; res_mes := None; res_fileName := None |}.

Definition errorResult (errorMessage : jsstring) : ProcessResult :=
  {| res_success := false; res_reason := Some ReasonError;
     res_error := Some errorMessage;
     res_nome := None; res_mes := None; res_fileName := None |}.

Definition successResult (nome mes fileName : jsstring) : ProcessResult :=
  {| res_success := true; res_reason := None; res_error := None;
     res_nome := Some nome; res_mes := Some mes; res_fileName := Some fileName |}.

Definition sentinel : jsstring := js "Não é PIX".

(** [input.mimeType ?? "image/jpeg"] *)
Definition inputMime (input : PixReceiptInput) : jsstring :=
  match inputMimeType input with
  | Some m => m
  | None => js "image/jpeg"
  end.

Section Process.
Context {U : Unicode}.
Variable cfg : Config.

Definition getCurrentMonthName : Prog jsstring :=
  month <- call ToLocaleMonth ;;
  ret (capitalizeMonth month).

(** The body of the [try] of [processPixReceipt]. *)
Definition processPixReceiptTry (input : PixReceiptInput) : Prog ProcessResult :=
  let mime := inputMime input in
  nome <- call (ReadImage (imageBuffer input) mime) ;;
  if eqb nome sentinel then Ret notPixResult
  else
    let nomeCapitalizado := capitalizeName nome in
    mes <- getCurrentMonthName ;;
    let fileName := nomeFormatado nomeCapitalizado mes (extension input) in
    _ <- planilha cfg nomeCapitalizado
           (inr {| fileName := fileName;
                   buffer := imageBuffer input;
                   mimeType := Some mime |})
           (Some mes) None ;;
    Ret (successResult nomeCapitalizado mes fileName).

Definition processPixReceipt (input : PixReceiptInput) : Prog ProcessResult :=
  tryCatch (processPixReceiptTry input)
    (fun error => Ret (errorResult (errorMessage error))).

End Process.

(* ================================================================== *)
(** * A remote side in memory *)
(* ================================================================== *)

(** A spreadsheet and a folder store kept in memory, against which the
    programs run to a value: the ranges that were written or provisioned,
    each with its values, and the files of the store in the order they were
    created. A search answers with the files whose own name and parent are
    written as the query it is given, at most one ([pageSize: 1]); a create
    adds a file with an identifier and a link of its own. *)
Module Sim.

Record StoredFile := {
  sf_id : jsstring;
  sf_name : jsstring;
  sf_link : jsstring;
  sf_parents : list jsstring;
  sf_trashed : bool;
  sf_mimeType : jsstring;
  sf_body : Buffer
}.

Record World := {
  sheets : list (jsstring * list (list cell));
  drive : list StoredFile;
  classifier : outcome jsstring;
  month : jsstring;
  disk : list (jsstring * Buffer);
  sheetsFailure : option Thrown
}.

Fixpoint lookup {V} (key : jsstring) (m : list (jsstring * V)) : option V :=
  match m with
  | [] => None
  | (k, v) :: r => if eqb k key then Some v else lookup key r
  end.

Definition render (v : CellValue) : jsstring :=
  match v with
  | VString s => s
  | VBool true => js "TRUE"
  | VBool false => js "FALSE"
  end.

Definition answers (q : jsstring) (f : StoredFile) : bool :=
  negb (sf_trashed f)
  && existsb (fun p => eqb q (driveQuery (sf_name f) p)) (sf_parents f).

Definition asDriveFile (f : StoredFile) : DriveFile :=
  {| file_id := Some (sf_id f); webViewLink := Some (sf_link f) |}.

Definition newFile (w : World) (name parent mimeType : jsstring) (body : Buffer)
  : StoredFile :=
  let id := js "file-" ++ numberToString (Z.of_nat (length (drive w))) in
  {| sf_id := id;
     sf_name := name;
     sf_link := js "https://drive.google.com/file/d/" ++ id ++ js "/view";
     sf_parents := [parent];
     sf_trashed := false;
     sf_mimeType := mimeType;
     sf_body := body |}.

Definition withSheets (w : World) (s : list (jsstring * list (list cell))) : World :=
  {| sheets := s; drive := drive w; classifier := classifier w;
     month := month w; disk := disk w; sheetsFailure := sheetsFailure w |}.

Definition withDrive (w : World) (d : list StoredFile) : World :=
  {| sheets := sheets w; drive := d; classifier := classifier w;
     month := month w; disk := disk w; sheetsFailure := sheetsFailure w |}.

Definition handle : handler World :=
  fun op =>
    match op return World -> outcome (resp op) * World with
    | ReadImage _ _ => fun w => (classifier w, w)
    | ToLocaleMonth => fun w => (inr (month w), w)
    | ReadFile path => fun w =>
        (match lookup path (disk w) with
         | Some b => inr b
         | None => inl (ErrorObj (js "ENOENT: no such file or directory"))
         end, w)
    | GetAuthClient => fun w => (inr tt, w)
    | SheetsGet range => fun w =>
        (match sheetsFailure w with
         | Some e => inl e
         | None => inr (lookup range (sheets w))
         end, w)
    | SheetsUpdate range value => fun w =>
        match sheetsFailure w with
        | Some e => (inl e, w)
        | None => (inr tt, withSheets w ((range, [[Some (render value)]]) :: sheets w))
        end
    | DriveList q => fun w =>
        (inr (Some (map asDriveFile (firstn 1 (filter (answers q) (drive w))))), w)
    | DriveCreate name parent mimeType body => fun w =>
        let f := newFile w name parent mimeType body in
        (inr (asDriveFile f), withDrive w (drive w ++ [f]))
    end.

End Sim.

(* ================================================================== *)
(** * What the statements speak of *)
(* ================================================================== *)

(** The label at index [i] of [R] is the target [t], after normalization. *)
Definition matchesAt {U : Unicode} (R : list cell) (t : jsstring) (i : nat) : Prop :=
  exists label,
    nth_error R i = Some label
    /\ normalizeText (orEmpty label) = normalizeText t.

(** A column address of one letter, A to Z. *)
Definition isColumnLetter (s : jsstring) : bool :=
  match s with
  | [c] => (65 <=? c) && (c <=? 90)
  | _ => false
  end.

(** The part of a string before its first space (U+0020). *)
Fixpoint beforeSpace (s : jsstring) : jsstring :=
  match s with
  | [] => []
  | c :: r => if c =? 32 then [] else c :: beforeSpace r
  end.

(** The first token of a string whose tokens are separated by white space of
    any kind: the specification's words, to compare with what the source
    computes. *)
Fixpoint takeToken (s : jsstring) : jsstring :=
  match s with
  | [] => []
  | c :: r => if isWhiteSpace c then [] else c :: takeToken r
  end.

Definition firstWhitespaceToken (s : jsstring) : jsstring :=
  takeToken (trimStart s).

Definition withLeadingDot (extension : jsstring) : jsstring :=
  match extension with
  | 46 :: _ => extension
  | _ => 46 :: extension
  end.

(** The receipt [processPixReceipt] hands to [planilha] for a name and a
    month. *)
Definition receiptOf {U : Unicode} (input : PixReceiptInput)
    (nome month : jsstring)
  : ReceiptUpload :=
  {| fileName := nomeFormatado (capitalizeName nome) (capitalizeMonth month)
                   (extension input);
     buffer := imageBuffer input;
     mimeType := Some (inputMime input) |}.


(** The call resolved. *)
Definition succeeded (e : Event) : bool :=
  match ev_out e with
  | inl _ => false
  | inr _ => true
  end.





(* ================================================================== *)
(** * Examples *)
(* ================================================================== *)

Import Latin1.

(** The sheet of receipts and the main sheet of the examples: two payers on
    rows 2 and 3, three months on columns B to D, the third header written
    without its cedilla. *)
Definition exampleSheets : list (jsstring * list (list cell)) :=
  [ (js "Comprovantes!A2:A29", [[Some (js "Ana")]; [Some (js "Bruno")]]);
    (js "Comprovantes!B1:L1",
     [[Some (js "Comp - Janeiro"); Some (js "Comp - Fevereiro");
       Some (js "Comp - Marco")]]);
    (js "Main!A2:A29", [[Some (js "Ana")]; [Some (js "Bruno")]]);
    (js "Main!B1:L1",
     [[Some (js "JANEIRO"); Some (js "FEVEREIRO"); Some (js "MARCO")]]) ].

Definition exampleConfig : Config := defaultConfig (js "sheet-1") (js "folder-1").

Definition exampleWorld (name : outcome jsstring) (month : jsstring) : Sim.World :=
  {| Sim.sheets := exampleSheets;
     Sim.drive := [];
     Sim.classifier := name;
     Sim.month := month;
     Sim.disk := [];
     Sim.sheetsFailure := None |}.

Definition exampleReceipt (name : jsstring) : ReceiptUpload :=
  {| fileName := name; buffer := []; mimeType := None |}.



Definition emptyStore : Sim.World := exampleWorld (inr (js "ANA")) (js "fevereiro").

Definition firstRef : option jsstring * jsstring :=
  (Some (js "file-0"), js "https://drive.google.com/file/d/file-0/view").

(** The classifier answers with the sentinel. *)
Definition sentinelWorld : Sim.World := exampleWorld (inr sentinel) (js "fevereiro").

Definition exampleInput : PixReceiptInput :=
  {| imageBuffer := [Byte.x01]; extension := js "jpg"; inputMimeType := None |}.



(* ================================================================== *)
(** * read_image.ts *)
(* ================================================================== *)

(** The answer of the chat completion, as far as [read_image] reads it:
    [response.choices[0]?.message?.content]. *)
Record ChatMessage := { content : option jsstring }.
Record ChatChoice := { message : option ChatMessage }.
Record ChatCompletion := { choices : list ChatChoice }.

(** What [read_image] calls: the file system, the Groq client with the model
    of the configuration, and the base64 encoding of a buffer. *)
Record Vision := {
  readFile : jsstring -> outcome Buffer;
  createCompletion : jsstring -> outcome ChatCompletion;
  toBase64 : Buffer -> jsstring
}.

(** The address the image is sent as:
    [data:<mimeType>;base64,<the bytes in base64>]. *)
Definition dataUrl (v : Vision) (mimeType : jsstring) (img : Buffer) : jsstring :=
  js "data:" ++ mimeType ++ js ";base64," ++ toBase64 v img.

(** [response.choices[0]?.message?.content?.trim() ?? sentinel] *)
Definition completionText (response : ChatCompletion) : jsstring :=
  match choices response with
  | choice :: _ =>
    match message choice with
    | Some m =>
      match content m with
      | Some text => trim text
      | None => sentinel
      end
    | None => sentinel
    end
  | [] => sentinel
  end.

Definition errFileNotFound (imageInput : jsstring + Buffer) : Thrown :=
  ErrorObj (js "Arquivo não encontrado: "
            ++ match imageInput with
               | inl path => path
               | inr _ => js "[buffer-em-memoria]"
               end).

Definition errGroqApi (message : jsstring) : Thrown :=
  ErrorObj (js "Erro na API Groq: " ++ message).

Definition errGroqNetwork (message : jsstring) : Thrown :=
  ErrorObj (js "Erro de rede ao conectar Groq: " ++ message).

Section ReadImage.
Context {U : Unicode}.

(** The [catch] of [read_image]. *)
Definition classifyError (imageInput : jsstring + Buffer) (error : Thrown)
  : outcome jsstring :=
  match error with
  | ErrorObj message =>
    let msg := toLowerCase message in
    if includes msg (js "enoent") || includes msg (js "not found")
    then inl (errFileNotFound imageInput)
    else if includes msg (js "api") || includes msg (js "401")
            || includes msg (js "403")
    then inl (errGroqApi message)
    else if includes msg (js "network") || includes msg (js "econnrefused")
    then inl (errGroqNetwork message)
    else inr sentinel
  | NonError _ => inr sentinel
  end.

Definition read_image (v : Vision) (imageInput : jsstring + Buffer)
    (mimeType : jsstring) : outcome jsstring :=
  match
    match imageInput with
    | inl path => readFile v path
    | inr image => inr image
    end
  with
  | inl error => classifyError imageInput error
  | inr img =>
    match createCompletion v (dataUrl v mimeType img) with
    | inl error => classifyError imageInput error
    | inr response => inr (completionText response)
    end
  end.

End ReadImage.

(* ================================================================== *)
(** * config.ts: the environment *)
(* ================================================================== *)

Module Environment.

(** [process.env]: a variable is unset or has a string. *)
Definition Env := jsstring -> option jsstring.

(** The numbers [parseInt] makes: not a number, an infinity, or a whole
    number. The two zeros are one here; the source does not tell them
    apart. *)
Inductive Number :=
| NaN
| Infinity (negative : bool)
| Finite (value : Z).

(** The double nearest to a natural number, ties to the even significand of
    53 bits; from 2^1024 on, infinity. *)
Definition toDouble (n : Z) : Number :=
  if n <? 2 ^ 53 then Finite n
  else
    let e := Z.log2 n - 52 in
    let q := n / 2 ^ e in
    let r := n mod 2 ^ e in
    let half := 2 ^ (e - 1) in
    let q := if (half <? r) || ((r =? half) && Z.odd q) then q + 1 else q in
    if 2 ^ 1024 <=? q * 2 ^ e then Infinity false else Finite (q * 2 ^ e).

Definition isDigit (c : Z) : bool := (48 <=? c) && (c <=? 57).

(** The value of the longest prefix of decimal digits, if it has one. *)
Fixpoint digitsValue (s : jsstring) (acc : option Z) : option Z :=
  match s with
  | c :: r =>
    if isDigit c
    then digitsValue r (Some (10 * match acc with Some a => a | None => 0 end
                              + (c - 48)))
    else acc
  | [] => acc
  end.

Definition negate (n : Number) : Number :=
  match n with
  | NaN => NaN
  | Infinity negative => Infinity (negb negative)
  | Finite value => Finite (- value)
  end.

(** The text without the sign it may start with. *)
Definition unsigned (s : jsstring) : jsstring :=
  match s with
  | c :: r => if (c =? 45) || (c =? 43) then r else s
  | [] => []
  end.

(** [parseInt(s, 10)]: leading white space is skipped, then a sign, then the
    digits are read up to the first other character; their value is taken
    exactly and rounded to a double. *)
Definition parseInt10 (s : jsstring) : Number :=
  let s := trimStart s in
  let negative := startsWith s [45] in
  match digitsValue (unsigned s) None with
  | None => NaN
  | Some value =>
    if negative then negate (toDouble value) else toDouble value
  end.

(** [a < b] on numbers. *)
Definition lessThan (a b : Number) : bool :=
  match a, b with
  | NaN, _ | _, NaN => false
  | Infinity true, Infinity true => false
  | Infinity true, _ => true
  | _, Infinity true => false
  | Infinity false, _ => false
  | _, Infinity false => true
  | Finite x, Finite y => x <? y
  end.

(** [Number.isInteger] *)
Definition isInteger (n : Number) : bool :=
  match n with
  | Finite _ => true
  | _ => false
  end.

Definition errMissingEnv (name : jsstring) : Thrown :=
  ErrorObj (js "Variável de ambiente obrigatória não configurada: " ++ name).

Definition requireEnv (env : Env) (name : jsstring) : outcome jsstring :=
  if negb (truthy (env name)) then inl (errMissingEnv name)
  else inr (orEmpty (env name)).

Definition optionalEnv (env : Env) (name defaultValue : jsstring) : jsstring :=
  match env name with
  | Some value => value
  | None => defaultValue
  end.

Definition resolveHealthPort (env : Env) : Number :=
  let rawPort :=
    match env (js "HEALTH_PORT") with
    | Some value => value
    | None =>
      match env (js "PORT") with
      | Some value => value
      | None =>
        match env (js "SERVER_PORT") with
        | Some value => value
        | None => js "3001"
        end
      end
    end in
  parseInt10 rawPort.

Record WhatsAppSettings := {
  authFolder : jsstring;
  groupJid : jsstring;
  logLevel : jsstring;
  healthPort : Number;
  healthHost : jsstring
}.

Definition WHATSAPP_CONFIG (env : Env) : WhatsAppSettings := {|
  authFolder := optionalEnv env (js "AUTH_FOLDER") (js "auth_info");
  groupJid := optionalEnv env (js "GROUP_JID") [];
  logLevel := optionalEnv env (js "LOG_LEVEL") (js "info");
  healthPort := resolveHealthPort env;
  healthHost := optionalEnv env (js "HEALTH_HOST") (js "0.0.0.0")
|}.

Record GoogleSettings := {
  spreadsheetId : jsstring;
  folderId : jsstring;
  clientId : jsstring;
  clientSecret : jsstring;
  refreshToken : jsstring;
  sheetName : jsstring;
  mainSheetName : jsstring;
  redirectUri : jsstring
}.

Definition GOOGLE_CONFIG (env : Env) : outcome GoogleSettings :=
  match requireEnv env (js "GOOGLE_SHEET_ID") with
  | inl e => inl e
  | inr sheet =>
  match requireEnv env (js "GOOGLE_DRIVE_FOLDER_ID") with
  | inl e => inl e
  | inr folder =>
  match requireEnv env (js "GOOGLE_CLIENT_ID") with
  | inl e => inl e
  | inr client =>
  match requireEnv env (js "GOOGLE_CLIENT_SECRET") with
  | inl e => inl e
  | inr secret =>
  match requireEnv env (js "GOOGLE_REFRESH_TOKEN") with
  | inl e => inl e
  | inr token =>
    inr {| spreadsheetId := sheet;
           folderId := folder;
           clientId := client;
           clientSecret := secret;
           refreshToken := token;
           sheetName := optionalEnv env (js "GOOGLE_SHEET_NAME")
                          (js "Comprovantes");
           mainSheetName := optionalEnv env (js "GOOGLE_MAIN_SHEET_NAME")
                              (js "Main");
           redirectUri := js "http://localhost:3000/oauth2callback" |}
  end end end end end.

Record SpreadsheetSettings := {
  nameStartRow : Number;
  nameEndRow : Number;
  formulaSeparator : jsstring
}.

Definition SPREADSHEET_CONFIG (env : Env) : SpreadsheetSettings := {|
  nameStartRow := parseInt10 (optionalEnv env (js "SHEET_NAME_START_ROW")
                                (js "2"));
  nameEndRow := parseInt10 (optionalEnv env (js "SHEET_NAME_END_ROW")
                              (js "29"));
  formulaSeparator := optionalEnv env (js "SHEETS_FORMULA_SEPARATOR") (js ";")
|}.

Record AiSettings := {
  apiKey : jsstring;
  model : jsstring
}.

Definition AI_CONFIG (env : Env) : outcome AiSettings :=
  match requireEnv env (js "GROQ_API_KEY") with
  | inl e => inl e
  | inr key =>
    inr {| apiKey := key;
           model := optionalEnv env (js "GROQ_VISION_MODEL")
                      (js "llama-3.2-90b-vision-preview") |}
  end.

(** The module as it is evaluated when first imported: its constants from
    top to bottom, the first throw ending it. *)
Record Settings := {
  whatsapp : WhatsAppSettings;
  google : GoogleSettings;
  spreadsheet : SpreadsheetSettings;
  ai : AiSettings
}.

Definition load (env : Env) : outcome Settings :=
  let whatsapp := WHATSAPP_CONFIG env in
  match GOOGLE_CONFIG env with
  | inl e => inl e
  | inr google =>
    let spreadsheet := SPREADSHEET_CONFIG env in
    match AI_CONFIG env with
    | inl e => inl e
    | inr ai =>
      inr {| whatsapp := whatsapp; google := google;
             spreadsheet := spreadsheet; ai := ai |}
    end
  end.

Definition errPortNotInteger : Thrown :=
  ErrorObj (js "HEALTH_PORT/PORT/SERVER_PORT deve ser um número inteiro válido").
Definition errPortRange : Thrown :=
  ErrorObj (js "HEALTH_PORT deve estar entre 0 e 65535").
Definition errStartRow : Thrown :=
  ErrorObj (js "SHEET_NAME_START_ROW deve ser >= 1").
Definition errEndRow : Thrown :=
  ErrorObj (js "SHEET_NAME_END_ROW deve ser >= SHEET_NAME_START_ROW").

Definition validateConfig (settings : Settings) : outcome unit :=
  let port := healthPort (whatsapp settings) in
  let first := nameStartRow (spreadsheet settings) in
  let last := nameEndRow (spreadsheet settings) in
  if negb (isInteger port) then inl errPortNotInteger
  else if lessThan port (Finite 0) || lessThan (Finite 65535) port
  then inl errPortRange
  else if lessThan first (Finite 1) then inl errStartRow
  else if lessThan last first then inl errEndRow
  else inr tt.

End Environment.

(* ================================================================== *)
(** * google-auth.ts *)
(* ================================================================== *)

Module GoogleAuth.

(** An OAuth2 client, as far as the source sets it up. *)
Record OAuth2Client := {
  client_id : jsstring;
  client_secret : jsstring;
  redirect_uri : jsstring;
  credentials : option jsstring
}.

Definition errNoRefreshToken : Thrown :=
  ErrorObj (js "GOOGLE_REFRESH_TOKEN não configurado. Execute: npm run authorize-google").

Definition createOAuth2Client (config : Environment.GoogleSettings)
    (authenticated : bool) : outcome OAuth2Client :=
  let client := {| client_id := Environment.clientId config;
                   client_secret := Environment.clientSecret config;
                   redirect_uri := Environment.redirectUri config;
                   credentials := None |} in
  if authenticated then
    if negb (truthy (Some (Environment.refreshToken config)))
    then inl errNoRefreshToken
    else inr {| client_id := client_id client;
                client_secret := client_secret client;
                redirect_uri := redirect_uri client;
                credentials := Some (Environment.refreshToken config) |}
  else inr client.

(** [getAuthClient], with [cachedAuth] passed in and out. *)
Definition getAuthClient (config : Environment.GoogleSettings)
    (cachedAuth : option OAuth2Client)
  : outcome OAuth2Client * option OAuth2Client :=
  match cachedAuth with
  | Some client => (inr client, cachedAuth)
  | None =>
    match createOAuth2Client config true with
    | inl e => (inl e, None)
    | inr client => (inr client, Some client)
    end
  end.

End GoogleAuth.

(* ================================================================== *)
(** * whatsapp.ts *)
(* ================================================================== *)

(** [s.endsWith(p)] *)
Definition endsWith (s p : jsstring) : bool := startsWith (rev s) (rev p).

(** [set.has(k)] for a set of strings. *)
Definition has (set : list jsstring) (k : jsstring) : bool :=
  existsb (eqb k) set.

(** What the source imports from Baileys and from the runtime and does not
    define. Each of the two predicates may be missing ([typeof f ===
    "function"] is tested) and may throw (it is called inside a [try]). *)
Class Host := {
  loggedOut : Z;
  isJidBroadcast : option (jsstring -> outcome bool);
  isJidStatusBroadcast : option (jsstring -> outcome bool);
  encodeURIComponent : jsstring -> outcome jsstring
}.

Module WhatsApp.

Definition reconnectDelayMs : Z := 5000.
Definition maxReconnectAttempts : Z := 10.

Definition STREAM_RESTART_CODE : Z := 515.

Definition IGNORED_MESSAGE_TYPES : list jsstring :=
  [js "protocolMessage"; js "reactionMessage"; js "pollUpdateMessage";
   js "senderKeyDistributionMessage"].

Definition IGNORED_MESSAGE_KEYS : list jsstring :=
  [js "contextInfo"; js "senderKeyDistributionMessage";
   js "messageContextInfo"].

Record AppMetrics := {
  messagesReceived : Z;
  messagesProcessed : Z;
  errors : Z;
  reconnections : Z;
  startedAt : Z;
  connected : bool
}.

(** The increments of the counters. *)
Definition received (m : AppMetrics) : AppMetrics :=
  {| messagesReceived := messagesReceived m + 1;
     messagesProcessed := messagesProcessed m;
     errors := errors m; reconnections := reconnections m;
     startedAt := startedAt m; connected := connected m |}.

Definition processed (m : AppMetrics) : AppMetrics :=
  {| messagesReceived := messagesReceived m;
     messagesProcessed := messagesProcessed m + 1;
     errors := errors m; reconnections := reconnections m;
     startedAt := startedAt m; connected := connected m |}.

Definition failed (m : AppMetrics) : AppMetrics :=
  {| messagesReceived := messagesReceived m;
     messagesProcessed := messagesProcessed m;
     errors := errors m + 1; reconnections := reconnections m;
     startedAt := startedAt m; connected := connected m |}.

Definition reconnected (m : AppMetrics) : AppMetrics :=
  {| messagesReceived := messagesReceived m;
     messagesProcessed := messagesProcessed m;
     errors := errors m; reconnections := reconnections m + 1;
     startedAt := startedAt m; connected := connected m |}.

Definition setConnected (b : bool) (m : AppMetrics) : AppMetrics :=
  {| messagesReceived := messagesReceived m;
     messagesProcessed := messagesProcessed m;
     errors := errors m; reconnections := reconnections m;
     startedAt := startedAt m; connected := b |}.

(** [getUptimeSeconds], with [Date.now()] given. *)
Definition getUptimeSeconds (now : Z) (metrics : AppMetrics) : Z :=
  (now - startedAt metrics) / 1000.

Record MetricsReport := {
  status : jsstring;
  uptime : jsstring;
  uptimeSeconds : Z;
  rep_messagesReceived : Z;
  rep_messagesProcessed : Z;
  rep_errors : Z;
  rep_reconnections : Z
}.

(** [formatMetrics]: [Math.floor(a / b)] is the floored quotient and [a % b]
    the remainder that takes the sign of [a]. *)
Definition formatMetrics (now : Z) (metrics : AppMetrics) : MetricsReport :=
  let uptime := getUptimeSeconds now metrics in
  let hours := uptime / 3600 in
  let minutes := Z.rem uptime 3600 / 60 in
  let seconds := Z.rem uptime 60 in
  {| status := if connected metrics then js "connected" else js "disconnected";
     uptime := numberToString hours ++ js "h " ++ numberToString minutes
               ++ js "m " ++ numberToString seconds ++ js "s";
     uptimeSeconds := uptime;
     rep_messagesReceived := messagesReceived metrics;
     rep_messagesProcessed := messagesProcessed metrics;
     rep_errors := errors metrics;
     rep_reconnections := reconnections metrics |}.

(** [messageTimestamp]: absent, a number of seconds, a [Long] whose
    [toNumber] may throw, or another value with what [Number(ts)] makes of
    it when that is finite. *)
Inductive Timestamp :=
| TsNone
| TsNumber (ts : Z)
| TsLong (toNumber : outcome Z)
| TsOther (asNumber : option Z).

Definition toUnixTimestamp (ts : Timestamp) : Z :=
  match ts with
  | TsNone => 0
  | TsNumber n => n
  | TsLong (inr n) => n
  | TsLong (inl _) => 0
  | TsOther (Some num) => num
  | TsOther None => 0
  end.

Section Jid.
Context {host : Host}.

Definition shouldIgnoreJid (jid : option jsstring) : bool :=
  if negb (truthy jid) || (Z.of_nat (length (orEmpty jid)) <? 5) then true
  else
    let jid := orEmpty jid in
    if eqb jid (js "status@broadcast") then true
    else if endsWith jid (js "@newsletter") then true
    else
      let caught := endsWith jid (js "@broadcast") in
      match
        match isJidBroadcast with
        | Some f => f jid
        | None => inr false
        end
      with
      | inl _ => caught
      | inr true => true
      | inr false =>
        match
          match isJidStatusBroadcast with
          | Some f => f jid
          | None => inr false
          end
        with
        | inl _ => caught
        | inr b => b
        end
      end.

End Jid.

Record ImageMessage := { mimetype : option jsstring }.

(** A message of the protocol, as far as the source reads it: its own keys
    in order, the image, and the four wrappers, each of which may hold a
    message of its own. *)
#[local] Unset Elimination Schemes.
Inductive IMessage := {
  keys : list jsstring;
  imageMessage : option ImageMessage;
  ephemeralMessage : option (option IMessage);
  viewOnceMessage : option (option IMessage);
  viewOnceMessageV2 : option (option IMessage);
  viewOnceMessageV2Extension : option (option IMessage)
}.
#[local] Set Elimination Schemes.

(** [wrapper?.message?.imageMessage] *)
Definition wrappedImage (wrapper : option (option IMessage))
  : option ImageMessage :=
  match wrapper with
  | Some (Some inner) => imageMessage inner
  | _ => None
  end.

(** [a ?? b] *)
Definition orElse {A} (a b : option A) : option A :=
  match a with Some _ => a | None => b end.

Definition extractImageMessage (message : option IMessage)
  : option ImageMessage :=
  match message with
  | None => None
  | Some message =>
    orElse (imageMessage message)
      (orElse (wrappedImage (ephemeralMessage message))
         (orElse (wrappedImage (viewOnceMessage message))
            (orElse (wrappedImage (viewOnceMessageV2 message))
               (wrappedImage (viewOnceMessageV2Extension message)))))
  end.

Definition extensionFromMime (mimeType : option jsstring) : jsstring :=
  if negb (truthy mimeType) then js "jpg"
  else if includes (orEmpty mimeType) (js "png") then js "png"
  else if includes (orEmpty mimeType) (js "webp") then js "webp"
  else if includes (orEmpty mimeType) (js "gif") then js "gif"
  else js "jpg".

Definition getMessageType (message : option IMessage) : jsstring :=
  match message with
  | None => js "unknown"
  | Some message =>
    match find (fun k => negb (has IGNORED_MESSAGE_KEYS k)) (keys message) with
    | Some type => type
    | None => js "unknown"
    end
  end.

Record MessageKey := {
  remoteJid : option jsstring;
  fromMe : option bool;
  participant : option jsstring
}.

Record WAMessage := {
  key : MessageKey;
  message : option IMessage;
  messageTimestamp : Timestamp;
  pushName : option jsstring
}.

(** What [downloadMediaMessage] may do for a message: throw, or resolve to a
    buffer or to nothing. *)
Definition Download := WAMessage -> outcome (option Buffer).

Definition errEmptyDownload : Thrown :=
  ErrorObj (js "Download da imagem retornou vazio").

Definition saveIncomingImage (download : Download) (msg : WAMessage)
  : outcome (option PixReceiptInput) :=
  match extractImageMessage (message msg) with
  | None => inr None
  | Some imageMessage =>
    match download msg with
    | inl error => inl error
    | inr mediaBuffer =>
      match mediaBuffer with
      | None | Some [] => inl errEmptyDownload
      | Some mediaBuffer =>
        inr (Some {| imageBuffer := mediaBuffer;
                     extension := extensionFromMime (mimetype imageMessage);
                     inputMimeType :=
                       Some (match mimetype imageMessage with
                             | Some m => m
                             | None => js "image/jpeg"
                             end) |})
      end
    end
  end.

Section Handlers.
Context {U : Unicode} {host : Host}.
Variable wcfg : Environment.WhatsAppSettings.
Variable cfg : Config.

(** [handleMessage]: the counters after the call. What is logged is left
    out. *)
Definition handleMessage (download : Download) (msg : WAMessage)
    (startTime : Z) (metrics : AppMetrics) : Prog AppMetrics :=
  let metrics := received metrics in
  if match fromMe (key msg) with Some b => b | None => false end
  then Ret metrics
  else
    match message msg with
    | None => Ret metrics
    | Some _ =>
      let msgTime := toUnixTimestamp (messageTimestamp msg) in
      if (0 <? msgTime) && (msgTime <? startTime) then Ret metrics
      else
        let msgType := getMessageType (message msg) in
        if has IGNORED_MESSAGE_TYPES msgType then Ret metrics
        else if shouldIgnoreJid (remoteJid (key msg)) then Ret metrics
        else
          let remoteJid := orEmpty (remoteJid (key msg)) in
          if negb (truthy (Some (Environment.groupJid wcfg))) then Ret metrics
          else if negb (eqb remoteJid (Environment.groupJid wcfg)) then Ret metrics
          else
            tryCatch
              match saveIncomingImage download msg with
              | inl error => Throw error
              | inr None => Ret metrics
              | inr (Some imageData) =>
                result <- processPixReceipt cfg imageData ;;
                if negb (res_success result) then
                  match res_reason result with
                  | Some NotPix => Ret metrics
                  | _ => Ret (failed metrics)
                  end
                else Ret (processed metrics)
              end
              (fun err => Ret (failed metrics))
    end.

(** The listener of [messages.upsert]: the messages of a batch one after
    the other. *)
Fixpoint handleMessages (download : Download) (messages : list WAMessage)
    (startTime : Z) (metrics : AppMetrics) : Prog AppMetrics :=
  match messages with
  | [] => Ret metrics
  | msg :: rest =>
    metrics <- tryCatch (handleMessage download msg startTime metrics)
                 (fun err => Ret (failed (received metrics))) ;;
    handleMessages download rest startTime metrics
  end.

Definition onMessagesUpsert (download : Download) (messages : list WAMessage)
    (type : jsstring) (startTime : Z) (metrics : AppMetrics)
  : Prog AppMetrics :=
  if negb (eqb type (js "notify")) && negb (eqb type (js "append"))
  then Ret metrics
  else handleMessages download messages startTime metrics.

End Handlers.

(** [lastDisconnect.error], when it is an object: a Boom error has its
    status under [output], others may have one of their own. *)
Record BoomOutput := { out_statusCode : option Z }.
Record DisconnectError := {
  output : option BoomOutput;
  statusCode : option Z
}.
Record LastDisconnect := { error : option DisconnectError }.

Inductive Connection := ConnOpen | ConnConnecting | ConnClose.

Record ConnectionUpdate := {
  connection : option Connection;
  lastDisconnect : option LastDisconnect;
  qr : option jsstring
}.

Definition extractDisconnectStatusCode (lastDisconnect : option LastDisconnect)
  : Z :=
  match lastDisconnect with
  | Some {| error := Some boomError |} =>
    match
      match output boomError with
      | Some o => out_statusCode o
      | None => None
      end
    with
    | Some code => code
    | None =>
      match statusCode boomError with
      | Some code => code
      | None => 0
      end
    end
  | _ => 0
  end.

(** What [handleConnectionUpdate] changes: the attempts of the reconnect
    state, the counters, and the address of the QR image. *)
Record Session := {
  attempts : Z;
  metrics : AppMetrics;
  currentQRCodeUrl : option jsstring
}.

(** How a call of [handleConnectionUpdate] ends: it returns, having called
    [scheduleReconnect] or not; the process exits; or it throws. *)
Inductive Ending :=
| Returned (scheduled : bool)
| Exited (code : Z)
| Raised (error : Thrown).

Definition qrImageUrl (encoded : jsstring) : jsstring :=
  js "https://api.qrserver.com/v1/create-qr-code/?size=360x360&data=" ++ encoded.

Section Connection.
Context {host : Host}.

Definition handleConnectionUpdate (update : ConnectionUpdate) (st : Session)
  : Session * Ending :=
  match
    if truthy (qr update) then
      match encodeURIComponent (orEmpty (qr update)) with
      | inl e => inl e
      | inr encoded =>
        inr {| attempts := attempts st; metrics := metrics st;
               currentQRCodeUrl := Some (qrImageUrl encoded) |}
      end
    else inr st
  with
  | inl e => (st, Raised e)
  | inr st =>
    match connection update with
    | Some ConnOpen =>
      ({| attempts := 0; metrics := setConnected true (metrics st);
          currentQRCodeUrl := None |}, Returned false)
    | Some ConnClose =>
      let st := {| attempts := attempts st;
                   metrics := setConnected false (metrics st);
                   currentQRCodeUrl := currentQRCodeUrl st |} in
      let statusCode := extractDisconnectStatusCode (lastDisconnect update) in
      if statusCode =? loggedOut then (st, Exited 1)
      else
        let st := {| attempts := attempts st + 1;
                     metrics := reconnected (metrics st);
                     currentQRCodeUrl := currentQRCodeUrl st |} in
        if attempts st >? maxReconnectAttempts then (st, Exited 1)
        else (st, Returned true)
    | _ => (st, Returned false)
    end
  end.

(** The listener of [connection.update] over the updates of a socket, one
    after the other until the process exits or a call throws: the session
    after the last call, and how each call ended. *)
Fixpoint connectionUpdates (updates : list ConnectionUpdate) (st : Session)
  : Session * list Ending :=
  match updates with
  | [] => (st, [])
  | update :: rest =>
    match handleConnectionUpdate update st with
    | (st', Returned scheduled) =>
      let rest := connectionUpdates rest st' in
      (fst rest, Returned scheduled :: snd rest)
    | (st', ending) => (st', [ending])
    end
  end.

End Connection.

End WhatsApp.

(* ================================================================== *)
(** * What the further statements speak of *)
(* ================================================================== *)

(** The writes of an execution, in order. *)
Definition updates (tr : list Event) : list Event := filter isSheetsUpdate tr.

(** The Drive calls of an execution, in order. *)
Definition driveCalls (tr : list Event) : list Event := filter isDriveCall tr.

(** The third read of an execution is the read of [range], it answered
    [values], and the guard of [planilha] took the cell for unfilled. *)
Definition checkedEmpty (tr : list Event) (range : jsstring) : Prop :=
  exists values,
    nth_error (sheetReads tr) 2 = Some (range, inr values)
    /\ hasReceipt (firstCell values) = false.

(** The name under which [planilha] stores the receipt: that of the receipt
    in memory, or for a path the custom name, else the last component. *)
Definition uploadName (arg2 : jsstring + ReceiptUpload)
    (customFileName : option jsstring) : jsstring :=
  match arg2 with
  | inr receipt => fileName receipt
  | inl imgPath =>
    match customFileName with
    | Some n => n
    | None => basename imgPath
    end
  end.

(** The words the [catch] of [read_image] looks for. *)
Definition classifiedWords : list jsstring :=
  [js "enoent"; js "not found"; js "api"; js "401"; js "403";
   js "network"; js "econnrefused"].

(** A thrown value in which the [catch] of [read_image] finds none of
    them: one that is no [Error], or an [Error] whose message in lower case
    includes none. *)
Definition unclassified {U : Unicode} (error : Thrown) : Prop :=
  match error with
  | ErrorObj message =>
    forall word, In word classifiedWords ->
                 includes (toLowerCase message) word = false
  | NonError _ => True
  end.

(** A remote side whose classifier is [read_image] over [v], as
    [processPixReceipt] calls it: with the image in memory. *)
Definition withVision {U : Unicode} {S : Type} (v : Vision) (h : handler S)
  : handler S :=
  fun op =>
    match op as o return S -> outcome (resp o) * S with
    | ReadImage image mimeType =>
      fun s => (read_image v (inr image) mimeType, s)
    | op => h op
    end.

(** The variables that [config.ts] requires, in the order it reads them. *)
Definition requiredVariables : list jsstring :=
  [js "GOOGLE_SHEET_ID"; js "GOOGLE_DRIVE_FOLDER_ID"; js "GOOGLE_CLIENT_ID";
   js "GOOGLE_CLIENT_SECRET"; js "GOOGLE_REFRESH_TOKEN"; js "GROQ_API_KEY"].

(** The first of the names that the environment does not set to a string
    that is not empty. *)
Definition firstMissing (env : Environment.Env) (names : list jsstring)
  : option jsstring :=
  find (fun name => negb (truthy (env name))) names.

(** The variables that [config.ts] has a default for. *)
Definition optionalVariables : list jsstring :=
  [js "AUTH_FOLDER"; js "GROUP_JID"; js "LOG_LEVEL"; js "HEALTH_PORT";
   js "PORT"; js "SERVER_PORT"; js "HEALTH_HOST"; js "GOOGLE_SHEET_NAME";
   js "GOOGLE_MAIN_SHEET_NAME"; js "SHEET_NAME_START_ROW";
   js "SHEET_NAME_END_ROW"; js "SHEETS_FORMULA_SEPARATOR";
   js "GROQ_VISION_MODEL"].

(** A text that, after white space and a sign, starts with a digit. *)
Definition startsWithNumber (raw : jsstring) : bool :=
  match Environment.unsigned (trimStart raw) with
  | c :: _ => Environment.isDigit c
  | [] => false
  end.

(** The loaded settings as the configuration [planilha] reads, when both
    rows are whole numbers. *)
Definition asConfig (settings : Environment.Settings) : option Config :=
  match Environment.nameStartRow (Environment.spreadsheet settings),
        Environment.nameEndRow (Environment.spreadsheet settings) with
  | Environment.Finite first, Environment.Finite last =>
    Some {| spreadsheetId := Environment.spreadsheetId (Environment.google settings);
            folderId := Environment.folderId (Environment.google settings);
            sheetName := Environment.sheetName (Environment.google settings);
            mainSheetName :=
              Environment.mainSheetName (Environment.google settings);
            nameStartRow := first;
            nameEndRow := last;
            formulaSeparator :=
              Environment.formulaSeparator (Environment.spreadsheet settings) |}
  | _, _ => None
  end.

(** The calls of [scheduleReconnect] among the endings. *)
Definition scheduledReconnects (endings : list WhatsApp.Ending) : Z :=
  Z.of_nat (length (filter (fun e => match e with
                                     | WhatsApp.Returned true => true
                                     | _ => false
                                     end) endings)).

(** A close that is not a logout and shows no QR code. *)
Definition isPlainClose {host : Host} (update : WhatsApp.ConnectionUpdate)
  : bool :=
  match WhatsApp.connection update with
  | Some WhatsApp.ConnClose =>
    negb (WhatsApp.extractDisconnectStatusCode (WhatsApp.lastDisconnect update)
          =? loggedOut)
    && negb (truthy (WhatsApp.qr update))
  | _ => false
  end.

(** The part of [handleMessage] that runs once a message passed the
    filters: its [try] and its [catch]. *)
Definition processMessage {U : Unicode} (cfg : Config)
    (download : WhatsApp.Download) (msg : WhatsApp.WAMessage)
    (metrics : WhatsApp.AppMetrics) : Prog WhatsApp.AppMetrics :=
  tryCatch
    match WhatsApp.saveIncomingImage download msg with
    | inl error => Throw error
    | inr None => Ret metrics
    | inr (Some imageData) =>
      result <- processPixReceipt cfg imageData ;;
      if negb (res_success result) then
        match res_reason result with
        | Some NotPix => Ret metrics
        | _ => Ret (WhatsApp.failed metrics)
        end
      else Ret (WhatsApp.processed metrics)
    end
    (fun err => Ret (WhatsApp.failed metrics)).

(* ================================================================== *)
(** * What Baileys and the runtime provide *)
(* ================================================================== *)

Module Runtime.

(** The characters [encodeURIComponent] leaves as they are. *)
Definition isUnreserved (c : Z) : bool :=
  ((48 <=? c) && (c <=? 57)) || ((65 <=? c) && (c <=? 90))
  || ((97 <=? c) && (c <=? 122))
  || existsb (Z.eqb c) [45; 95; 46; 33; 126; 42; 39; 40; 41].

Definition hexDigit (n : Z) : Z := if n <? 10 then 48 + n else 55 + n.

Definition escapeByte (b : Z) : jsstring := [37; hexDigit (b / 16); hexDigit (b mod 16)].

Definition utf8 (cp : Z) : list Z :=
  if cp <? 128 then [cp]
  else if cp <? 2048 then [192 + cp / 64; 128 + cp mod 64]
  else if cp <? 65536
  then [224 + cp / 4096; 128 + (cp / 64) mod 64; 128 + cp mod 64]
  else [240 + cp / 262144; 128 + (cp / 4096) mod 64;
        128 + (cp / 64) mod 64; 128 + cp mod 64].

Definition escape (cp : Z) : jsstring := flat_map escapeByte (utf8 cp).

Definition errURIMalformed : Thrown := ErrorObj (js "URI malformed").

Definition isHighSurrogate (c : Z) : bool := (55296 <=? c) && (c <=? 56319).
Definition isLowSurrogate (c : Z) : bool := (56320 <=? c) && (c <=? 57343).

Definition prepend (p : jsstring) (r : outcome jsstring) : outcome jsstring :=
  match r with
  | inl e => inl e
  | inr s => inr (p ++ s)
  end.

Fixpoint encodeURIComponent (s : jsstring) : outcome jsstring :=
  match s with
  | [] => inr []
  | c :: r =>
    if isUnreserved c then prepend [c] (encodeURIComponent r)
    else if isLowSurrogate c then inl errURIMalformed
    else if isHighSurrogate c then
      match r with
      | d :: r' =>
        if isLowSurrogate d
        then prepend (escape ((c - 55296) * 1024 + (d - 56320) + 65536))
               (encodeURIComponent r')
        else inl errURIMalformed
      | [] => inl errURIMalformed
      end
    else prepend (escape c) (encodeURIComponent r)
  end.

(** [DisconnectReason.loggedOut], [isJidBroadcast] and
    [isJidStatusBroadcast] of Baileys. *)
#[global] Instance host : Host :=
  Build_Host 401
    (Some (fun jid => inr (endsWith jid (js "@broadcast"))))
    (Some (fun jid => inr (eqb jid (js "status@broadcast"))))
    encodeURIComponent.

End Runtime.

(* ================================================================== *)
(** * Further examples *)
(* ================================================================== *)

(** A Groq client that answers with a name between blanks, one that cannot
    connect, and one that is refused; and a disk without the file. *)
Definition answering (text : jsstring) : Vision :=
  {| readFile := fun _ => inl (ErrorObj (js "ENOENT: no such file or directory"));
     createCompletion := fun _ =>
       inr {| choices := [{| message := Some {| content := Some text |} |}] |};
     toBase64 := fun _ => js "AQ==" |}.

Definition failing (message : jsstring) : Vision :=
  {| readFile := fun _ => inl (ErrorObj (js "ENOENT: no such file or directory"));
     createCompletion := fun _ => inl (ErrorObj message);
     toBase64 := fun _ => js "AQ==" |}.

(** An environment given by the list of its variables. *)
Definition envOf (variables : list (jsstring * jsstring)) : Environment.Env :=
  fun name =>
    match find (fun entry => eqb (fst entry) name) variables with
    | Some entry => Some (snd entry)
    | None => None
    end.

(** The required variables alone; and with a group and an empty port. *)
Definition requiredOnly : Environment.Env :=
  envOf [ (js "GOOGLE_SHEET_ID", js "sheet-1");
          (js "GOOGLE_DRIVE_FOLDER_ID", js "folder-1");
          (js "GOOGLE_CLIENT_ID", js "client");
          (js "GOOGLE_CLIENT_SECRET", js "secret");
          (js "GOOGLE_REFRESH_TOKEN", js "token");
          (js "GROQ_API_KEY", js "key") ].

Definition exampleEnv : Environment.Env :=
  envOf [ (js "GOOGLE_SHEET_ID", js "sheet-1");
          (js "GOOGLE_DRIVE_FOLDER_ID", js "folder-1");
          (js "GOOGLE_CLIENT_ID", js "client");
          (js "GOOGLE_CLIENT_SECRET", js "secret");
          (js "GOOGLE_REFRESH_TOKEN", js "token");
          (js "GROQ_API_KEY", js "key");
          (js "GROUP_JID", js "120363000000000001@g.us");
          (js "HEALTH_PORT", []) ].

Definition exampleSettings : Environment.WhatsAppSettings :=
  Environment.WHATSAPP_CONFIG exampleEnv.

(** An image sent to the group after the start. *)
Definition exampleMessage : WhatsApp.WAMessage :=
  {| WhatsApp.key :=
       {| WhatsApp.remoteJid := Some (js "120363000000000001@g.us");
          WhatsApp.fromMe := Some false;
          WhatsApp.participant := Some (js "5511999990000@s.whatsapp.net") |};
     WhatsApp.message :=
       Some {| WhatsApp.keys := [js "imageMessage"];
               WhatsApp.imageMessage :=
                 Some {| WhatsApp.mimetype := Some (js "image/jpeg") |};
               WhatsApp.ephemeralMessage := None;
               WhatsApp.viewOnceMessage := None;
               WhatsApp.viewOnceMessageV2 := None;
               WhatsApp.viewOnceMessageV2Extension := None |};
     WhatsApp.messageTimestamp := WhatsApp.TsNumber 1700000100;
     WhatsApp.pushName := Some (js "Ana") |}.

Definition exampleDownload : WhatsApp.Download :=
  fun _ => inr (Some [Byte.x01]).

Definition noMetrics : WhatsApp.AppMetrics :=
  {| WhatsApp.messagesReceived := 0; WhatsApp.messagesProcessed := 0;
     WhatsApp.errors := 0; WhatsApp.reconnections := 0;
     WhatsApp.startedAt := 0; WhatsApp.connected := false |}.

Definition newSession : WhatsApp.Session :=
  {| WhatsApp.attempts := 0; WhatsApp.metrics := noMetrics;
     WhatsApp.currentQRCodeUrl := None |}.

(** A close with the status of an error of Baileys. *)
Definition closeWith (code : Z) : WhatsApp.ConnectionUpdate :=
  {| WhatsApp.connection := Some WhatsApp.ConnClose;
     WhatsApp.lastDisconnect :=
       Some {| WhatsApp.error :=
                 Some {| WhatsApp.output :=
                           Some {| WhatsApp.out_statusCode := Some code |};
                         WhatsApp.statusCode := None |} |};
     WhatsApp.qr := None |}.

Definition exampleHandled : outcome WhatsApp.AppMetrics * Sim.World * list Event :=
  run Sim.handle
    (WhatsApp.handleMessage exampleSettings exampleConfig exampleDownload
       exampleMessage 1700000000 noMetrics) emptyStore.

(* ================================================================== *)
(** * Properties of the lookups *)
(* ================================================================== *)

Lemma eqb_eq (s t : jsstring) : eqb s t = true <-> s = t.
Proof.
  revert t; induction s as [|x s IH]; intros [|y t]; simpl; split;
    try congruence; try reflexivity.
  - intros H. apply andb_true_iff in H as [Hx Hs].
    apply Z.eqb_eq in Hx. apply IH in Hs. congruence.
  - intros H. injection H as -> ->.
    rewrite Z.eqb_refl. simpl. apply IH. reflexivity.
Qed.

Lemma eqb_neq (s t : jsstring) : eqb s t = false <-> s <> t.
Proof.
  split.
  - intros H E. apply eqb_eq in E. congruence.
  - intros H. destruct (eqb s t) eqn:E; [|reflexivity].
    apply eqb_eq in E. contradiction.
Qed.

Section FindIndex.
Context {A : Type} (p : A -> bool).

Lemma findIndexFrom_none (l : list A) (i : Z) :
  (forall x, In x l -> p x = false) -> findIndexFrom p l i = -1.
Proof.
  revert i; induction l as [|x l IH]; intros i H; simpl; [reflexivity|].
  rewrite (H x (or_introl eq_refl)). apply IH.
  intros y Hy. apply H. right. exact Hy.
Qed.

Lemma findIndexFrom_least (l : list A) (i : Z) (n : nat) (x : A) :
  nth_error l n = Some x -> p x = true ->
  (forall m y, (m < n)%nat -> nth_error l m = Some y -> p y = false) ->
  findIndexFrom p l i = i + Z.of_nat n.
Proof.
  revert i n; induction l as [|a l IH]; intros i n Hn Hp Hlt.
  - destruct n; discriminate.
  - destruct n as [|n]; simpl in *.
    + injection Hn as ->. rewrite Hp. lia.
    + rewrite (Hlt O a) by (simpl; auto; lia).
      rewrite (IH (i + 1) n Hn Hp).
      * lia.
      * intros m y Hm Hy. apply (Hlt (S m) y); [lia | exact Hy].
Qed.


Lemma findIndexFrom_range (l : list A) (i : Z) :
  0 <= i ->
  findIndexFrom p l i = -1
  \/ i <= findIndexFrom p l i < i + Z.of_nat (length l).
Proof.
  revert i; induction l as [|a l IH]; intros i Hi; simpl.
  - left; reflexivity.
  - destruct (p a).
    + right; lia.
    + destruct (IH (i + 1) ltac:(lia)) as [E | E]; [left; exact E | right; lia].
Qed.

Lemma findIndex_none_inv (l : list A) :
  findIndex p l = -1 -> forall x, In x l -> p x = false.
Proof.
  unfold findIndex. intros H x Hx.
  destruct (p x) eqn:Hp; [|reflexivity].
  exfalso.
  assert (forall i, 0 <= i -> findIndexFrom p l i <> -1) as K.
  { clear H. induction l as [|a l IH]; intros i Hi; [destruct Hx|].
    simpl. destruct (p a) eqn:Ha; [lia|].
    destruct Hx as [-> | Hx]; [congruence|].
    apply IH; [exact Hx | lia]. }
  apply (K 0); [lia | exact H].
Qed.

End FindIndex.

Lemma findRow_least {U : Unicode} (R : list cell) (t : jsstring) (i : nat) :
  matchesAt R t i -> (forall j, (j < i)%nat -> ~ matchesAt R t j) ->
  findRow R t = Z.of_nat i.
Proof.
  intros (label & Hi & Hm) Hlt. unfold findRow, findIndex.
  rewrite (findIndexFrom_least _ R 0 i label Hi).
  - lia.
  - apply eqb_eq. exact Hm.
  - intros m y Hmi Hy. apply eqb_neq. intros E.
    apply (Hlt m Hmi). exists y. split; assumption.
Qed.


(** C5. [findRow] returns the one index whose label equals the target after
    normalization (diacritics stripped, lower case, trimmed) when there is
    exactly one such index, and -1, its not-found, when there is none; the
    label JOÃO SILVA is found for the target joao silva. *)
Theorem findRow_unique_match :
  (forall (U : Unicode) (R : list cell) (t : jsstring) (i : nat),
      matchesAt R t i -> (forall j, matchesAt R t j -> j = i) ->
      findRow R t = Z.of_nat i)
  /\ (forall (U : Unicode) (R : list cell) (t : jsstring),
      (forall j, ~ matchesAt R t j) -> findRow R t = -1)
  /\ (forall (U : Unicode) (R : list cell) (t : jsstring),
      findRow R t = -1 -> forall j, ~ matchesAt R t j)
  /\ findRow [Some (js "Ana"); Some (js "JOÃO SILVA")] (js "joao silva") = 1.
Proof.
  split; [|split; [|split]].
  - intros U R t i Hi Huniq. apply findRow_least; [exact Hi|].
    intros j Hj Hm. apply Huniq in Hm. lia.
  - intros U R t Hnone. unfold findRow, findIndex.
    apply findIndexFrom_none. intros x Hx. apply eqb_neq. intros E.
    destruct (In_nth_error R x Hx) as [j Hj].
    apply (Hnone j). exists x. split; assumption.
  - intros U R t H j (label & Hj & Hm).
    apply nth_error_In in Hj.
    pose proof (findIndex_none_inv _ R H label Hj) as K.
    apply eqb_neq in K. contradiction.
  - vm_compute. reflexivity.
Qed.

Lemma findRow_unique_match_witness :
  findRow [Some (js "Bruno"); Some (js "  João Silva ")] (js "JOAO SILVA") = 1.
Proof.
  apply (proj1 findRow_unique_match tables
           [Some (js "Bruno"); Some (js "  João Silva ")] (js "JOAO SILVA") 1%nat).
  - exists (Some (js "  João Silva ")). split; vm_compute; reflexivity.
  - intros [|[|j]] (label & Hj & Hm); simpl in Hj.
    + injection Hj as <-. vm_compute in Hm. discriminate.
    + reflexivity.
    + destruct j; discriminate.
Defined.

(** C1. The column lookup of [planilha] compares the raw header with the raw
    month: for the month Março it finds no column among headers whose third
    is Comp - Marco, although that header carries the marker and, once
    normalized, contains the normalized month, and although the lookup of the
    main sheet finds the column MARCO for the same month; [planilha] then
    fails with its column-not-found error before reading any cell. *)
Theorem findColumn_misses_unaccented_header :
  let headers := [Some (js "Comp - Janeiro"); Some (js "Comp - Fevereiro");
                  Some (js "Comp - Marco")] in
  let mes := js "Março" in
  includes (normalizeText (js "Comp - Marco")) (normalizeText mes) = true
  /\ includes (js "Comp - Marco") (js "Comp") = true
  /\ findColumn headers mes = -1
  /\ findColumnMain [Some (js "JANEIRO"); Some (js "FEVEREIRO"); Some (js "MARCO")]
       mes = 2
  /\ result (run Sim.handle
               (planilha exampleConfig (js "Ana")
                  (inr (exampleReceipt (js "Ana_Mar.jpg"))) (Some mes) None)
               (exampleWorld (inr (js "Ana")) (js "março")))
     = inl (errColumnNotFound mes).
Proof. vm_compute. repeat split; reflexivity. Qed.

(** C7, as stated, fails at offset 25: from the start letter B the 26th
    address is the code unit after Z, not a letter. *)
Lemma getColumnFromOffset_25_not_a_letter :
  getColumnFromOffset 25 = js "["
  /\ isColumnLetter (getColumnFromOffset 25) = false.
Proof. vm_compute. split; reflexivity. Qed.

(** C7, amended. For every offset k with 0 <= k <= 24, [getColumnFromOffset]
    gives the single upper-case letter k letters after the start letter B;
    offset 0 gives B and offset 10 gives L. *)
Theorem getColumnFromOffset_letter (k : Z) :
  0 <= k <= 24 ->
  getColumnFromOffset k = [66 + k]
  /\ isColumnLetter (getColumnFromOffset k) = true
  /\ getColumnFromOffset 0 = js "B"
  /\ getColumnFromOffset 10 = js "L".
Proof.
  intros Hk. unfold getColumnFromOffset, fromCharCode.
  change monthStartColumn with [66].
  rewrite !Z.mod_small by lia.
  split; [reflexivity|]. split; [|split; reflexivity].
  unfold isColumnLetter. apply andb_true_iff. split; apply Z.leb_le; lia.
Qed.

Lemma getColumnFromOffset_letter_witness :
  getColumnFromOffset 24 = js "Z".
Proof.
  exact (proj1 (getColumnFromOffset_letter 24 ltac:(lia))).
Defined.

(* ================================================================== *)
(** * The name of the file *)
(* ================================================================== *)

Lemma split_hd (s : jsstring) : hd [] (split 32 s) = beforeSpace s.
Proof.
  induction s as [|c r IH]; simpl; [reflexivity|].
  destruct (c =? 32); [reflexivity|].
  destruct (split 32 r) as [|w ws]; simpl in *; congruence.
Qed.

(** C8, as stated, fails for a name whose words are separated by a tab: the
    source splits at spaces only, so the whole name is the first token. *)
Lemma nomeFormatado_tab_separated_name :
  let nome := js "ANA" ++ [9] ++ js "LIMA" in
  nomeFormatado (capitalizeName nome) (js "Fevereiro") (js "jpg")
  = js "Ana" ++ [9] ++ js "lima_Fev.jpg"
  /\ firstWhitespaceToken (capitalizeName nome) ++ js "_"
     ++ slice_to 3 (js "Fevereiro") ++ withLeadingDot (js "jpg")
     = js "Ana_Fev.jpg".
Proof. vm_compute. split; reflexivity. Qed.

(** C8, amended. For every extracted name, month and extension, the name of
    the file is the part of the capitalized name before its first space
    character (U+0020), then an underscore, then the first 3 code units of
    the month, then the extension, with a dot put before it exactly when it
    does not start with one; João Silva, Fevereiro and jpg give
    João_Fev.jpg. *)
Theorem nomeFormatado_spec :
  (forall (U : Unicode) (nome mes extension : jsstring),
      nomeFormatado (capitalizeName nome) mes extension
      = beforeSpace (capitalizeName nome) ++ js "_" ++ firstn 3 mes
        ++ withLeadingDot extension)
  /\ nomeFormatado (capitalizeName (js "João Silva")) (js "Fevereiro") (js "jpg")
     = js "João_Fev.jpg"
  /\ nomeFormatado (capitalizeName (js "João Silva")) (js "Fevereiro") (js ".jpg")
     = js "João_Fev.jpg".
Proof.
  split; [|split; vm_compute; reflexivity].
  intros U nome mes extension. unfold nomeFormatado, slice_to.
  rewrite split_hd. do 3 f_equal.
  destruct extension as [|c r]; [reflexivity|].
  change (js ".") with [46]. simpl.
  destruct (Z.eqb_spec c 46) as [->|Hc]; simpl.
  - destruct r; reflexivity.
  - destruct c as [|c|c]; try reflexivity.
    repeat (destruct c as [c|c|]; try reflexivity; try congruence).
Qed.

(* ================================================================== *)
(** * Executions *)
(* ================================================================== *)

Section Run.
Context {S : Type} (h : handler S).

Lemma run_bind {A B} (p : Prog A) (f : A -> Prog B) (s : S) :
  run h (bindProg p f) s =
  match result (run h p s) with
  | inr a =>
    let rest := run h (f a) (final (run h p s)) in
    (result rest, final rest, trace (run h p s) ++ trace rest)
  | inl e => (inl e, final (run h p s), trace (run h p s))
  end.
Proof.
  revert s; induction p as [a | e | op k IH]; intros s;
    cbn [bindProg run result final trace fst snd app].
  - destruct (run h (f a) s) as [[r s2] tr2]. reflexivity.
  - reflexivity.
  - rewrite IH.
    destruct (result (run h (k (fst (h op s))) (snd (h op s))));
      reflexivity.
Qed.

Lemma run_tryCatch {A} (p : Prog A) (c : Thrown -> Prog A) (s : S) :
  run h (tryCatch p c) s =
  match result (run h p s) with
  | inl e =>
    let rest := run h (c e) (final (run h p s)) in
    (result rest, final rest, trace (run h p s) ++ trace rest)
  | inr a => (inr a, final (run h p s), trace (run h p s))
  end.
Proof.
  revert s; induction p as [a | e | op k IH]; intros s;
    cbn [tryCatch run result final trace fst snd app].
  - reflexivity.
  - destruct (run h (c e) s) as [[r s2] tr2]. reflexivity.
  - rewrite IH.
    destruct (result (run h (k (fst (h op s))) (snd (h op s))));
      reflexivity.
Qed.

Lemma run_call_bind {A} (op : Op) (f : resp op -> Prog A) (s : S) :
  run h (bindProg (call op) f) s =
  match fst (h op s) with
  | inl e => (inl e, snd (h op s), [Ev op (fst (h op s))])
  | inr r =>
    (result (run h (f r) (snd (h op s))), final (run h (f r) (snd (h op s))),
     Ev op (fst (h op s)) :: trace (run h (f r) (snd (h op s))))
  end.
Proof.
  unfold call. cbn [bindProg run].
  destruct (h op s) as [[e | r] s1];
    cbn [fst snd bindProg run result final trace]; reflexivity.
Qed.

(** A [catch] that throws what it caught changes nothing. *)
Lemma run_rethrow {A} (p : Prog A) (s : S) :
  run h (tryCatch p (fun error => Throw error)) s = run h p s.
Proof.
  rewrite run_tryCatch.
  destruct (run h p s) as [[[e | a] s1] tr1];
    cbn [run result final trace fst snd]; [|reflexivity].
  rewrite app_nil_r. reflexivity.
Qed.

End Run.

Lemma sheetReads_app (tr1 tr2 : list Event) :
  sheetReads (tr1 ++ tr2) = sheetReads tr1 ++ sheetReads tr2.
Proof.
  induction tr1 as [|[op o] tr1 IH]; simpl; [reflexivity|].
  destruct op; simpl; rewrite IH; reflexivity.
Qed.

(** One step of a symbolic execution: the answer of the next call is split
    into a rejection and a value. *)
Ltac run_step h :=
  match goal with
  | |- context [h ?op ?s] =>
    let o := fresh "o" in
    let s' := fresh "s" in
    let e := fresh "e" in
    destruct (h op s) as [[e | o] s']
  | H : context [h ?op ?s] |- _ =>
    let o := fresh "o" in
    let s' := fresh "s" in
    let e := fresh "e" in
    destruct (h op s) as [[e | o] s']
  end;
  cbn [run bindProg tryCatch call promiseAll2 bind ret Monad_Prog
       result final trace fst snd sheetReads filter isDriveCall
       isSheetsUpdate isDriveCreate isSheetsCall ev_op ev_out nth_error] in *.

Section Guard.
Context {U : Unicode} (cfg : Config) {S : Type} (h : handler S).



(** [planilha] either stops before any remote call to Sheets or Drive, or
    runs [registrar] with the month and the receipt of its arguments, after
    at most the read of a local file. *)
Lemma planilha_cases (nome : jsstring) (arg2 : jsstring + ReceiptUpload)
    (arg3 customFileName : option jsstring) (s : S) :
  (filter isSheetsCall (trace (run h (planilha cfg nome arg2 arg3 customFileName) s)) = []
   /\ filter isDriveCall (trace (run h (planilha cfg nome arg2 arg3 customFileName) s)) = []
   /\ exists e, result (run h (planilha cfg nome arg2 arg3 customFileName) s) = inl e)
  \/ exists mes receipt s1 pre,
      arg3 = Some mes /\ mes <> []
      /\ (forall r, arg2 = inr r -> receipt = r /\ pre = [] /\ s1 = s)
      /\ filter isSheetsCall pre = [] /\ filter isDriveCall pre = []
      /\ run h (planilha cfg nome arg2 arg3 customFileName) s
         = (result (run h (registrar cfg nome mes receipt) s1),
            final (run h (registrar cfg nome mes receipt) s1),
            pre ++ trace (run h (registrar cfg nome mes receipt) s1)).
Proof.
  unfold planilha.
  destruct (negb (truthy (Some (spreadsheetId cfg)))
            || negb (truthy (Some (folderId cfg)))).
  { left. cbn. repeat split. eexists. reflexivity. }
  rewrite run_rethrow.
  unfold resolveArguments.
  destruct arg2 as [imgPath | receipt];
    destruct arg3 as [[|c mes]|];
    cbn [truthy negb run bindProg call bind ret Monad_Prog result final trace
         fst snd filter isSheetsCall isDriveCall ev_op];
    try (left; repeat split; eexists; reflexivity).
  - destruct (h (ReadFile imgPath) s) as [[e | b] s1];
      cbn [run bindProg result final trace fst snd filter isSheetsCall
           isDriveCall ev_op].
    + left. repeat split. eexists. reflexivity.
    + right. eexists (c :: mes), _, s1, [Ev (ReadFile imgPath) (inr b)].
      split; [reflexivity|]. split; [discriminate|].
      split; [intros r Hr; discriminate|].
      split; [reflexivity|]. split; [reflexivity|]. reflexivity.
  - right. exists (c :: mes), receipt, s, [].
    split; [reflexivity|]. split; [discriminate|].
    split; [intros r Hr; injection Hr as <-; repeat split|].
    split; [reflexivity|]. split; [reflexivity|].
    destruct (run h (registrar cfg nome (c :: mes) receipt) s) as [[r s2] tr].
    reflexivity.
Qed.

Lemma sheetReads_none (tr : list Event) :
  filter isSheetsCall tr = [] -> sheetReads tr = [].
Proof.
  induction tr as [|[op o] tr IH]; [reflexivity|].
  destruct op; cbn [filter isSheetsCall ev_op sheetReads];
    try discriminate; exact IH.
Qed.




End Guard.



(* ================================================================== *)
(** * The intake pipeline *)
(* ================================================================== *)

Section Intake.
Context {U : Unicode} (cfg : Config) {S : Type} (h : handler S).

(** The [catch] of [processPixReceipt] turns whatever its [try] throws into
    an error result and lets a returned result through; the calls made are
    those of the [try]. *)
Lemma processPixReceipt_run (input : PixReceiptInput) (s : S) :
  run h (processPixReceipt cfg input) s =
  (match result (run h (processPixReceiptTry cfg input) s) with
   | inl e => inr (errorResult (errorMessage e))
   | inr r => inr r
   end,
   final (run h (processPixReceiptTry cfg input) s),
   trace (run h (processPixReceiptTry cfg input) s)).
Proof.
  unfold processPixReceipt. rewrite run_tryCatch.
  destruct (result (run h (processPixReceiptTry cfg input) s));
    cbn [run result final trace fst snd]; [|reflexivity].
  rewrite app_nil_r. reflexivity.
Qed.

(** The [try] of [processPixReceipt] once the classifier has answered with a
    name and the month is known: the result and the calls of [planilha]. *)
Lemma processPixReceiptTry_run (input : PixReceiptInput) (s s1 s2 : S)
    (nome month : jsstring) :
  h (ReadImage (imageBuffer input) (inputMime input)) s = (inr nome, s1) ->
  eqb nome sentinel = false ->
  h ToLocaleMonth s1 = (inr month, s2) ->
  let write :=
    run h (planilha cfg (capitalizeName nome)
             (inr (receiptOf input nome month))
             (Some (capitalizeMonth month)) None) s2 in
  result (run h (processPixReceiptTry cfg input) s)
  = match result write with
    | inl e => inl e
    | inr _ => inr (successResult (capitalizeName nome) (capitalizeMonth month)
                      (nomeFormatado (capitalizeName nome)
                         (capitalizeMonth month) (extension input)))
    end
  /\ trace (run h (processPixReceiptTry cfg input) s)
     = Ev (ReadImage (imageBuffer input) (inputMime input)) (inr nome)
       :: Ev ToLocaleMonth (inr month) :: trace write.
Proof.
  intros H1 Hn H2 write. subst write.
  unfold processPixReceiptTry, getCurrentMonthName.
  cbn [run bindProg call bind ret Monad_Prog result final trace fst snd].
  rewrite H1. cbn [fst snd run bindProg]. rewrite Hn.
  cbn [run bindProg call bind ret Monad_Prog result final trace fst snd].
  rewrite H2. cbn [fst snd run bindProg].
  rewrite run_bind. unfold receiptOf.
  destruct (result (run h (planilha cfg _ _ _ _) s2));
    cbn [run result final trace fst snd]; split; try reflexivity.
  rewrite app_nil_r. reflexivity.
Qed.

(** C6. If the classifier answers with the sentinel, [processPixReceipt]
    returns the not-receipt result and its only call is that of the
    classifier: no call to Sheets and none to Drive. The error result is
    another one, and it is returned only when the [try] of
    [processPixReceipt] throws. *)
Theorem sentinel_returns_not_pix (input : PixReceiptInput) (s : S) :
  (fst (h (ReadImage (imageBuffer input) (inputMime input)) s) = inr sentinel ->
   result (run h (processPixReceipt cfg input) s) = inr notPixResult
   /\ trace (run h (processPixReceipt cfg input) s)
      = [Ev (ReadImage (imageBuffer input) (inputMime input)) (inr sentinel)]
   /\ filter isSheetsCall (trace (run h (processPixReceipt cfg input) s)) = []
   /\ filter isDriveCall (trace (run h (processPixReceipt cfg input) s)) = [])
  /\ res_reason notPixResult = Some NotPix
  /\ (forall m, res_reason (errorResult m) = Some ReasonError)
  /\ (forall r,
        result (run h (processPixReceipt cfg input) s) = inr r ->
        res_reason r = Some ReasonError ->
        exists e,
          result (run h (processPixReceiptTry cfg input) s) = inl e
          /\ r = errorResult (errorMessage e)).
Proof.
  rewrite processPixReceipt_run. cbn [result trace fst snd].
  split; [|split; [reflexivity|split; [reflexivity|]]].
  - intros Hc. unfold processPixReceiptTry.
    cbn [run bindProg call bind ret Monad_Prog result final trace fst snd].
    rewrite Hc. cbn [run bindProg].
    replace (eqb sentinel sentinel) with true
      by (symmetry; apply eqb_eq; reflexivity).
    cbn [run result trace fst snd filter isSheetsCall isDriveCall ev_op].
    repeat split; reflexivity.
  - intros r Hr Hreason.
    destruct (result (run h (processPixReceiptTry cfg input) s)) as [e | a] eqn:E.
    + exists e. split; [reflexivity|]. congruence.
    + exfalso. injection Hr as <-.
      revert E Hreason. unfold processPixReceiptTry, getCurrentMonthName.
      cbn [run bindProg call bind ret Monad_Prog result final trace fst snd].
      destruct (h (ReadImage (imageBuffer input) (inputMime input)) s)
        as [[e1 | nome] s1]; cbn [fst snd run bindProg result]; [discriminate|].
      destruct (eqb nome sentinel); cbn [run result fst].
      * intros E. injection E as <-. discriminate.
      * cbn [run bindProg call bind ret Monad_Prog result final trace fst snd].
        destruct (h ToLocaleMonth s1) as [[e2 | month] s2];
          cbn [fst snd run bindProg result]; [discriminate|].
        rewrite run_bind.
        destruct (result (run h (planilha cfg _ _ _ _) s2));
          cbn [run result fst]; [discriminate|].
        intros E. injection E as <-. discriminate.
Qed.


End Intake.

(* ================================================================== *)
(** * The store of receipts *)
(* ================================================================== *)

Section Upsert.
Variable cfg : Config.

Lemma eqb_refl (s : jsstring) : eqb s s = true.
Proof. apply eqb_eq. reflexivity. Qed.

Lemma truthy_cons (c : Z) (l : jsstring) : truthy (Some (c :: l)) = true.
Proof. reflexivity. Qed.








End Upsert.


Lemma sentinel_returns_not_pix_witness :
  result (run Sim.handle (processPixReceipt exampleConfig exampleInput) sentinelWorld)
  = inr notPixResult
  /\ trace (run Sim.handle (processPixReceipt exampleConfig exampleInput) sentinelWorld)
     = [Ev (ReadImage (imageBuffer exampleInput) (inputMime exampleInput))
          (inr sentinel)]
  /\ filter isSheetsCall
       (trace (run Sim.handle (processPixReceipt exampleConfig exampleInput)
                 sentinelWorld)) = []
  /\ filter isDriveCall
       (trace (run Sim.handle (processPixReceipt exampleConfig exampleInput)
                 sentinelWorld)) = [].
Proof.
  apply (proj1 (@sentinel_returns_not_pix tables exampleConfig Sim.World
                  Sim.handle exampleInput sentinelWorld)).
  reflexivity.
Defined.


(* ================================================================== *)
(** * The order of the two writes *)
(* ================================================================== *)








Section Order.
Context {U : Unicode} (cfg : Config) {S : Type} (h : handler S).




End Order.


(* ================================================================== *)
(** * The calls and the writes of planilha *)
(* ================================================================== *)

Ltac explore_eq h :=
  repeat first
    [ progress cbn [run bindProg tryCatch call promiseAll2 bind ret Monad_Prog
                    result final trace fst snd ev_op ev_out updates driveCalls
                    filter isSheetsUpdate isDriveCall sheetReads nth_error
                    firstn length map succeeded
                    negb andb orb truthy uploadName fileName buffer mimeType]
    | match goal with
      | |- context [h ?op ?s] =>
        let o := fresh "o" in
        let s' := fresh "s" in
        let e := fresh "e" in
        destruct (h op s) as [[e | o] s']
      | |- context [if ?b then _ else _] =>
        let E := fresh "E" in destruct b eqn:E
      | |- context [match ?x with Some _ => _ | None => _ end] =>
        let E := fresh "E" in destruct x eqn:E
      | |- context [match ?x with [] => _ | _ :: _ => _ end] =>
        let E := fresh "E" in destruct x eqn:E
      end ].

Ltac unit_answers :=
  repeat match goal with
         | u : resp (SheetsUpdate _ _) |- _ => destruct u
         | u : resp GetAuthClient |- _ => destruct u
         end.

Section Shape.
Context {U : Unicode} (cfg : Config) {S : Type} (h : handler S).

Lemma planilha_updates (nome : jsstring) (arg2 : jsstring + ReceiptUpload)
    (arg3 customFileName : option jsstring) (s : S) :
  (updates (trace (run h (planilha cfg nome arg2 arg3 customFileName) s)) = []
   /\ exists e, result (run h (planilha cfg nome arg2 arg3 customFileName) s) = inl e)
  \/ (exists range link o1,
        checkedEmpty (trace (run h (planilha cfg nome arg2 arg3 customFileName) s)) range
        /\ updates (trace (run h (planilha cfg nome arg2 arg3 customFileName) s))
           = [Ev (SheetsUpdate range
                    (VString (hyperlinkFormula (formulaSeparator cfg) link
                                (uploadName arg2 customFileName)))) o1]
        /\ exists e, result (run h (planilha cfg nome arg2 arg3 customFileName) s) = inl e)
  \/ (exists range link mainCell o2,
        checkedEmpty (trace (run h (planilha cfg nome arg2 arg3 customFileName) s)) range
        /\ updates (trace (run h (planilha cfg nome arg2 arg3 customFileName) s))
           = [Ev (SheetsUpdate range
                    (VString (hyperlinkFormula (formulaSeparator cfg) link
                                (uploadName arg2 customFileName)))) (inr tt);
              Ev (SheetsUpdate mainCell (VBool true)) o2]
        /\ result (run h (planilha cfg nome arg2 arg3 customFileName) s)
           = match o2 with inl e => inl e | inr _ => inr tt end).
Proof.
  unfold planilha, resolveArguments, registrar, upsert,
    marcarComprovanteNaAbaMain, checkedEmpty.
  destruct arg2 as [imgPath | receipt]; destruct arg3 as [[|c mes]|].
  all: explore_eq h.
  all: try (left; split; [reflexivity | eexists; reflexivity]).
  all: try (right; left; eexists _, _, _; split;
            [eexists; split; [reflexivity | eassumption]
            | split; [reflexivity | eexists; reflexivity]]).
  all: unit_answers.
  all: right; right; eexists _, _, _, _; split;
         [eexists; split; [reflexivity | eassumption]
         | split; reflexivity].
Qed.

(** X1. Every execution of [planilha] makes no write, or one write of the
    formula, or that write, which succeeded, followed by one write of the
    mark. The formula goes to the cell that was read third and found
    unfilled; nothing is written after a write that failed. *)
Theorem planilha_writes_shape (nome : jsstring) (arg2 : jsstring + ReceiptUpload)
    (arg3 customFileName : option jsstring) (s : S) :
  (updates (trace (run h (planilha cfg nome arg2 arg3 customFileName) s)) = []
   /\ exists e, result (run h (planilha cfg nome arg2 arg3 customFileName) s) = inl e)
  \/ (exists range link o1,
        checkedEmpty (trace (run h (planilha cfg nome arg2 arg3 customFileName) s)) range
        /\ updates (trace (run h (planilha cfg nome arg2 arg3 customFileName) s))
           = [Ev (SheetsUpdate range
                    (VString (hyperlinkFormula (formulaSeparator cfg) link
                                (uploadName arg2 customFileName)))) o1]
        /\ exists e, result (run h (planilha cfg nome arg2 arg3 customFileName) s) = inl e)
  \/ (exists range link mainCell o2,
        checkedEmpty (trace (run h (planilha cfg nome arg2 arg3 customFileName) s)) range
        /\ updates (trace (run h (planilha cfg nome arg2 arg3 customFileName) s))
           = [Ev (SheetsUpdate range
                    (VString (hyperlinkFormula (formulaSeparator cfg) link
                                (uploadName arg2 customFileName)))) (inr tt);
              Ev (SheetsUpdate mainCell (VBool true)) o2]
        /\ result (run h (planilha cfg nome arg2 arg3 customFileName) s)
           = match o2 with inl e => inl e | inr _ => inr tt end).
Proof. apply planilha_updates. Qed.

(** X2. [planilha] returns exactly when it made two writes and both succeeded. *)
Theorem planilha_success_iff (nome : jsstring) (arg2 : jsstring + ReceiptUpload)
    (arg3 customFileName : option jsstring) (s : S) :
  result (run h (planilha cfg nome arg2 arg3 customFileName) s) = inr tt
  <-> map succeeded
        (updates (trace (run h (planilha cfg nome arg2 arg3 customFileName) s)))
      = [true; true].
Proof.
  destruct (planilha_updates nome arg2 arg3 customFileName s)
    as [(Eu & e & Er) | [(range & link & o1 & _ & Eu & e & Er)
                        | (range & link & mainCell & o2 & _ & Eu & Er)]];
    rewrite Eu, Er; cbn [map succeeded ev_out].
  - split; discriminate.
  - split; [discriminate|]. destruct o1; discriminate.
  - destruct o2; split; try discriminate; reflexivity.
Qed.

(** X3. The Drive calls of every execution of [planilha]: none, or one search,
    or one search that resolved with no file followed by one create of the
    receipt under the searched name in the configured folder. *)
Theorem planilha_drive_shape (nome : jsstring) (arg2 : jsstring + ReceiptUpload)
    (arg3 customFileName : option jsstring) (s : S) :
  driveCalls (trace (run h (planilha cfg nome arg2 arg3 customFileName) s)) = []
  \/ (exists o,
        driveCalls (trace (run h (planilha cfg nome arg2 arg3 customFileName) s))
        = [Ev (DriveList (driveQuery (uploadName arg2 customFileName)
                            (folderId cfg))) o]
        /\ ((exists e, o = inl e) \/ (exists f fs, o = inr (Some (f :: fs)))))
  \/ (exists o mime body o2,
        driveCalls (trace (run h (planilha cfg nome arg2 arg3 customFileName) s))
        = [Ev (DriveList (driveQuery (uploadName arg2 customFileName)
                            (folderId cfg))) o;
           Ev (DriveCreate (uploadName arg2 customFileName) (folderId cfg)
                 mime body) o2]
        /\ (o = inr None \/ o = inr (Some []))
        /\ forall receipt, arg2 = inr receipt ->
             mime = receiptMime receipt /\ body = buffer receipt).
Proof.
  unfold planilha, resolveArguments, registrar, upsert,
    marcarComprovanteNaAbaMain.
  destruct arg2 as [imgPath | receipt]; destruct arg3 as [[|c mes]|].
  all: explore_eq h.
  all: try (left; reflexivity).
  all: try (right; left; eexists; split;
            [reflexivity
            | first [left; eexists; reflexivity
                    | right; eexists _, _; subst; reflexivity]]).
  all: right; right; eexists _, _, _, _; split; [reflexivity|]; split;
         [first [left; subst; reflexivity | right; subst; reflexivity]|];
         intros r Hr; first [discriminate | injection Hr as <-; split; reflexivity].
Qed.

(** X4. [planilha] checks its configuration and its month before anything else:
    with an identifier or the month missing it throws without a single call,
    not even the read of the file it was given the path of. *)
Theorem planilha_validates_first (nome : jsstring) (arg2 : jsstring + ReceiptUpload)
    (arg3 customFileName : option jsstring) (s : S) :
  truthy (Some (spreadsheetId cfg)) && truthy (Some (folderId cfg))
    && truthy arg3 = false ->
  trace (run h (planilha cfg nome arg2 arg3 customFileName) s) = []
  /\ result (run h (planilha cfg nome arg2 arg3 customFileName) s)
     = inl (if truthy (Some (spreadsheetId cfg)) && truthy (Some (folderId cfg))
            then errNoMonth else errConfig).
Proof.
  unfold planilha, resolveArguments.
  destruct (truthy (Some (spreadsheetId cfg)));
    destruct (truthy (Some (folderId cfg)));
    cbn [negb orb andb]; intros H;
    try (split; reflexivity).
  rewrite run_rethrow.
  destruct arg2; rewrite H; split; reflexivity.
Qed.

Lemma updates_none (tr : list Event) :
  filter isSheetsCall tr = [] -> filter isSheetsUpdate tr = [].
Proof.
  induction tr as [|[op o] tr IH]; [reflexivity|].
  destruct op; cbn [filter isSheetsCall isSheetsUpdate ev_op];
    try discriminate; exact IH.
Qed.

Lemma registrar_not_found (nome mes : jsstring) (receipt : ReceiptUpload) (s : S)
    (r1 r2 : jsstring) (names headers : option (list (list cell))) :
  firstn 2 (sheetReads (trace (run h (registrar cfg nome mes receipt) s)))
  = [(r1, inr names); (r2, inr headers)] ->
  findRow (flatValues names) nome = -1
  \/ findColumn (firstRow headers) mes = -1 ->
  result (run h (registrar cfg nome mes receipt) s)
  = inl (if findRow (flatValues names) nome =? -1
         then errRowNotFound cfg nome
         else errColumnNotFound mes)
  /\ length (sheetReads (trace (run h (registrar cfg nome mes receipt) s)))
     = 2%nat
  /\ filter isDriveCall (trace (run h (registrar cfg nome mes receipt) s)) = []
  /\ filter isSheetsUpdate (trace (run h (registrar cfg nome mes receipt) s)) = [].
Proof.
  unfold registrar.
  cbn [run bindProg tryCatch call promiseAll2 bind ret Monad_Prog].
  intros H Hnf.
  run_step h; cbn [firstn] in H; [discriminate|].
  run_step h; cbn [firstn] in H; [run_step h; cbn [firstn] in H; discriminate|].
  run_step h; cbn [firstn] in H; [discriminate|].
  destruct (Z.eqb_spec (findRow (flatValues o0) nome) (-1)) as [Hrow | Hrow];
    cbn [run result trace fst snd sheetReads firstn length filter isDriveCall
         isSheetsUpdate ev_op] in *;
    injection H as <- <- <- <-.
  - rewrite Hrow. cbn [Z.eqb Pos.eqb]. repeat split; reflexivity.
  - destruct (Z.eqb_spec (findRow (flatValues o0) nome) (-1)); [contradiction|].
    destruct Hnf as [Hnf | Hcol]; [contradiction|].
    rewrite Hcol. cbn [Z.eqb Pos.eqb run result trace fst snd sheetReads length
                       filter isDriveCall isSheetsUpdate ev_op].
    repeat split; reflexivity.
Qed.

(** X6. When the names and the headers have been read, a name that is on no row
    makes [planilha] throw the row-not-found error, and a month that is in no
    header carrying the marker makes it throw the column-not-found error; in
    both cases no cell is read, nothing is sent to Drive and nothing is
    written. The row is looked up first. *)
Theorem planilha_not_found (nome : jsstring) (arg2 : jsstring + ReceiptUpload)
    (arg3 customFileName : option jsstring) (s : S)
    (r1 r2 : jsstring) (names headers : option (list (list cell))) :
  firstn 2 (sheetReads (trace (run h (planilha cfg nome arg2 arg3 customFileName) s)))
  = [(r1, inr names); (r2, inr headers)] ->
  findRow (flatValues names) nome = -1
  \/ (exists mes, arg3 = Some mes /\ findColumn (firstRow headers) mes = -1) ->
  result (run h (planilha cfg nome arg2 arg3 customFileName) s)
  = inl (if findRow (flatValues names) nome =? -1
         then errRowNotFound cfg nome
         else errColumnNotFound (match arg3 with Some mes => mes | None => [] end))
  /\ length (sheetReads (trace (run h (planilha cfg nome arg2 arg3 customFileName) s)))
     = 2%nat
  /\ driveCalls (trace (run h (planilha cfg nome arg2 arg3 customFileName) s)) = []
  /\ updates (trace (run h (planilha cfg nome arg2 arg3 customFileName) s)) = [].
Proof.
  intros H Hnf.
  destruct (planilha_cases cfg h nome arg2 arg3 customFileName s)
    as [(Hs & _ & _) | (mes & receipt & s1 & pre & E3 & _ & _ & Hs & Hd & E)].
  - rewrite (sheetReads_none _ Hs) in H. discriminate.
  - rewrite E in *. cbn [result trace fst snd] in *.
    unfold driveCalls, updates.
    rewrite sheetReads_app, (sheetReads_none _ Hs) in *.
    rewrite !filter_app, Hd, (updates_none _ Hs). cbn [app] in *.
    subst arg3.
    apply (registrar_not_found nome mes receipt s1 r1 r2 names headers H).
    destruct Hnf as [Hrow | (m & Hm & Hcol)]; [left; exact Hrow|].
    injection Hm as <-. right. exact Hcol.
Qed.


End Shape.

Section Store.
Context (cfg : Config) {S : Type} (h : handler S).

(** X7. What the find-or-create makes of the answers of Drive. A file that the
    search returns without an id or without a link is refused and nothing is
    created. When the search returns no file the receipt is created, and of
    the answer only the link is looked at: without a link the call throws
    although the file has been created, and without an id it returns all the
    same. *)
Theorem upsert_answers (receipt : ReceiptUpload) (s s1 : S)
    (found : option (list DriveFile)) :
  h (DriveList (driveQuery (fileName receipt) (folderId cfg))) s = (inr found, s1) ->
  (forall f fs, found = Some (f :: fs) ->
     run h (upsert cfg receipt) s
     = (if truthy (file_id f) && truthy (webViewLink f)
        then inr (file_id f, orEmpty (webViewLink f))
        else inl (errExistingFile (fileName receipt)),
        s1,
        [Ev (DriveList (driveQuery (fileName receipt) (folderId cfg))) (inr found)]))
  /\ (found = None \/ found = Some [] ->
      forall created s2,
        h (DriveCreate (fileName receipt) (folderId cfg) (receiptMime receipt)
             (buffer receipt)) s1 = (inr created, s2) ->
        run h (upsert cfg receipt) s
        = (if truthy (webViewLink created)
           then inr (file_id created, orEmpty (webViewLink created))
           else inl errNoLink,
           s2,
           [Ev (DriveList (driveQuery (fileName receipt) (folderId cfg))) (inr found);
            Ev (DriveCreate (fileName receipt) (folderId cfg) (receiptMime receipt)
                  (buffer receipt)) (inr created)])).
Proof.
  intros Hl. unfold upsert. cbn [bind Monad_Prog].
  rewrite (run_call_bind h (DriveList _)), Hl. cbn [fst snd].
  split.
  - intros f fs ->.
    destruct (file_id f) as [[|c i]|]; destruct (webViewLink f) as [[|c' l]|];
      reflexivity.
  - intros Hnone created s2 Hc.
    destruct Hnone as [-> | ->]; lazy beta iota; cbn [bind Monad_Prog];
      rewrite (run_call_bind h (DriveCreate _ _ _ _)), Hc; cbn [fst snd];
      destruct (webViewLink created) as [[|c l]|]; reflexivity.
Qed.

End Store.

(** X8. For a header row of at most 11 cells, which is what a read of the range
    B1 to L1 returns, a column that is found has an address of one letter
    between B and L: the letter at the found index after B. *)
Theorem findColumn_address (headers : list cell) (mes : jsstring) :
  (length headers <= 11)%nat ->
  findColumn headers mes <> -1 ->
  0 <= findColumn headers mes <= 10
  /\ getColumnFromOffset (findColumn headers mes) = [66 + findColumn headers mes]
  /\ isColumnLetter (getColumnFromOffset (findColumn headers mes)) = true.
Proof.
  intros Hlen Hfound.
  assert (0 <= findColumn headers mes <= 10) as Hk.
  { unfold findColumn, findIndex in *.
    destruct (findIndexFrom_range
                (fun h => includes (orEmpty h) mes && includes (orEmpty h) (js "Comp"))
                headers 0 ltac:(lia)) as [E | E]; [contradiction | lia]. }
  split; [exact Hk|].
  unfold getColumnFromOffset, fromCharCode.
  change monthStartColumn with [66].
  rewrite !Z.mod_small by lia.
  split; [reflexivity|].
  unfold isColumnLetter. apply andb_true_iff. split; apply Z.leb_le; lia.
Qed.

Lemma findColumn_address_witness :
  0 <= findColumn [Some (js "Comp - Janeiro"); Some (js "Comp - Fevereiro")]
         (js "Fevereiro") <= 10
  /\ getColumnFromOffset
       (findColumn [Some (js "Comp - Janeiro"); Some (js "Comp - Fevereiro")]
          (js "Fevereiro"))
     = [66 + findColumn [Some (js "Comp - Janeiro"); Some (js "Comp - Fevereiro")]
               (js "Fevereiro")]
  /\ isColumnLetter
       (getColumnFromOffset
          (findColumn [Some (js "Comp - Janeiro"); Some (js "Comp - Fevereiro")]
             (js "Fevereiro"))) = true.
Proof.
  apply findColumn_address.
  - cbn [length]. lia.
  - vm_compute. discriminate.
Defined.

(** X9. The extension [saveIncomingImage] derives from the declared type is one
    of four and has no dot, so the name of the file always gets the dot from
    [processPixReceipt]. *)
Theorem extension_gets_its_dot (nomeCapitalizado mes : jsstring)
    (mimetype : option jsstring) :
  In (WhatsApp.extensionFromMime mimetype) [js "jpg"; js "png"; js "webp"; js "gif"]
  /\ nomeFormatado nomeCapitalizado mes (WhatsApp.extensionFromMime mimetype)
     = beforeSpace nomeCapitalizado ++ js "_" ++ firstn 3 mes ++ js "."
       ++ WhatsApp.extensionFromMime mimetype.
Proof.
  unfold nomeFormatado, slice_to. rewrite split_hd.
  unfold WhatsApp.extensionFromMime.
  destruct (negb (truthy mimetype));
    [|destruct (includes (orEmpty mimetype) (js "png"));
      [|destruct (includes (orEmpty mimetype) (js "webp"));
        [|destruct (includes (orEmpty mimetype) (js "gif"))]]].
  all: split; [cbn [In]; tauto | reflexivity].
Qed.

Section Success.
Context {U : Unicode} (cfg : Config) {S : Type} (h : handler S).


End Success.

(* ================================================================== *)
(** * read_image *)
(* ================================================================== *)

Lemma trimStart_stable (s : jsstring) :
  match s with [] => True | c :: _ => isWhiteSpace c = false end ->
  trimStart s = s.
Proof. destruct s as [|c r]; simpl; [reflexivity|]. intros ->. reflexivity. Qed.

Lemma trimStart_head (s : jsstring) :
  match trimStart s with [] => True | c :: _ => isWhiteSpace c = false end.
Proof.
  induction s as [|c r IH]; simpl; [exact I|].
  destruct (isWhiteSpace c) eqn:E; [exact IH|]. exact E.
Qed.

Lemma trimStart_suffix (s : jsstring) : exists p, s = p ++ trimStart s.
Proof.
  induction s as [|c r [p IH]]; simpl.
  - exists []. reflexivity.
  - destruct (isWhiteSpace c).
    + exists (c :: p). simpl. congruence.
    + exists []. reflexivity.
Qed.

Lemma trim_stable (s : jsstring) :
  trimStart s = s -> trimStart (rev s) = rev s -> trim s = s.
Proof. unfold trim. intros -> ->. apply rev_involutive. Qed.

Lemma trim_idempotent (s : jsstring) : trim (trim s) = trim s.
Proof.
  apply trim_stable; unfold trim.
  - pose proof (trimStart_head s) as Hs.
    destruct (trimStart_suffix (rev (trimStart s))) as [p Hp].
    set (u := trimStart (rev (trimStart s))) in *.
    destruct u as [|c u'] eqn:Eu; [reflexivity|].
    apply trimStart_stable.
    assert (Hr : trimStart s = rev (c :: u') ++ rev p).
    { rewrite <- rev_app_distr, <- Hp. symmetry. apply rev_involutive. }
    rewrite Hr in Hs.
    destruct (rev (c :: u')) as [|d w] eqn:Ew.
    + apply (f_equal (@length _)) in Ew. rewrite length_rev in Ew. discriminate.
    + exact Hs.
  - rewrite rev_involutive. apply trimStart_stable, trimStart_head.
Qed.

Section ReadImageFacts.
Context {U : Unicode}.

Lemma classifyError_rejection input error e :
  classifyError input error = inl e ->
  exists message,
    error = ErrorObj message
    /\ (e = errFileNotFound input \/ e = errGroqApi message
        \/ e = errGroqNetwork message).
Proof.
  unfold classifyError. destruct error as [message | text]; [|discriminate].
  intros H. exists message. split; [reflexivity|].
  destruct (_ || _) in H; [injection H as <-; auto|].
  destruct (_ || _) in H; [injection H as <-; auto|].
  destruct (_ || _) in H; [injection H as <-; auto|].
  discriminate.
Qed.

Lemma classifyError_unclassified input error :
  unclassified error -> classifyError input error = inr sentinel.
Proof.
  unfold unclassified, classifyError, classifiedWords.
  destruct error as [message | text]; [|reflexivity].
  intros H.
  rewrite !H by (simpl; auto 10). reflexivity.
Qed.

(** X11. A rejection of [read_image] is always one of the three wrapped
    errors, and comes from an [Error] object thrown by the file read or by the
    Groq call. *)
Theorem read_image_rejection v input mime e :
  read_image v input mime = inl e ->
  exists message,
    (e = errFileNotFound input \/ e = errGroqApi message
     \/ e = errGroqNetwork message)
    /\ ((exists path, input = inl path
                      /\ readFile v path = inl (ErrorObj message))
        \/ (exists img, createCompletion v (dataUrl v mime img)
                        = inl (ErrorObj message))).
Proof.
  unfold read_image. intros H.
  destruct input as [path | image].
  - destruct (readFile v path) as [error | img] eqn:Er.
    + apply classifyError_rejection in H. destruct H as (m & -> & H).
      exists m. split; [exact H|]. left. exists path. auto.
    + cbv zeta in H.
      destruct (createCompletion v _) as [error | response] eqn:Ec;
        [|discriminate].
      apply classifyError_rejection in H. destruct H as (m & -> & H).
      exists m. split; [exact H|]. right. exists img. exact Ec.
  - cbv zeta in H.
    destruct (createCompletion v _) as [error | response] eqn:Ec;
      [|discriminate].
    apply classifyError_rejection in H. destruct H as (m & -> & H).
    exists m. split; [exact H|]. right. exists image. exact Ec.
Qed.

(** X12. What [read_image] resolves to has no white space at either end. *)
Theorem read_image_answer_trimmed v input mime name :
  read_image v input mime = inr name -> trim name = name.
Proof.
  assert (Hs : trim sentinel = sentinel) by (vm_compute; reflexivity).
  assert (Hc : forall i error, classifyError i error = inr name ->
                               trim name = name).
  { intros i error. unfold classifyError.
    destruct error as [m | t]; [|intros [= <-]; exact Hs].
    destruct (_ || _); [discriminate|].
    destruct (_ || _); [discriminate|].
    destruct (_ || _); [discriminate|].
    intros [= <-]. exact Hs. }
  assert (Ht : forall response, trim (completionText response)
                                = completionText response).
  { intros response. unfold completionText.
    destruct (choices response) as [|choice ?]; [exact Hs|].
    destruct (message choice) as [m|]; [|exact Hs].
    destruct (content m) as [text|]; [|exact Hs].
    apply trim_idempotent. }
  unfold read_image. intros H.
  destruct input as [path | image].
  - destruct (readFile v path) as [error | img]; [exact (Hc _ _ H)|].
    cbv zeta in H. destruct (createCompletion v _) as [error | response].
    + exact (Hc _ _ H).
    + injection H as <-. apply Ht.
  - cbv zeta in H. destruct (createCompletion v _) as [error | response].
    + exact (Hc _ _ H).
    + injection H as <-. apply Ht.
Qed.

End ReadImageFacts.

Section FailOpen.
Context {U : Unicode} (cfg : Config) {S : Type} (h : handler S).

(** X13. When the Groq call fails with anything that is no [Error], or with
    an [Error] whose message has none of the words the [catch] looks for,
    [processPixReceipt] answers that the image is no receipt, not that an
    error happened, and calls neither Sheets nor Drive. *)
Theorem unclassified_failure_reads_as_not_pix (v : Vision)
    (input : PixReceiptInput) (error : Thrown) (s : S) :
  createCompletion v (dataUrl v (inputMime input) (imageBuffer input))
  = inl error ->
  unclassified error ->
  result (run (withVision v h) (processPixReceipt cfg input) s)
  = inr notPixResult
  /\ trace (run (withVision v h) (processPixReceipt cfg input) s)
     = [Ev (ReadImage (imageBuffer input) (inputMime input)) (inr sentinel)].
Proof.
  intros Hc Hu.
  assert (Hr : read_image v (inr (imageBuffer input)) (inputMime input)
               = inr sentinel).
  { unfold read_image. cbv zeta. fold (dataUrl v (inputMime input) (imageBuffer input)).
    rewrite Hc. apply classifyError_unclassified. exact Hu. }
  rewrite processPixReceipt_run. cbn [result trace fst snd].
  unfold processPixReceiptTry. cbn [bind Monad_Prog].
  rewrite (run_call_bind (withVision v h) (ReadImage _ _)).
  cbn [withVision fst snd]. rewrite Hr.
  assert (He : eqb sentinel sentinel = true) by apply eqb_refl.
  rewrite He. cbn [run result trace fst snd]. auto.
Qed.


End FailOpen.

(* ================================================================== *)
(** * The environment *)
(* ================================================================== *)

Section Settings.
Import Environment.

(** X15. The constants of [config.ts] are made exactly when the six required
    variables are all set and not empty; otherwise the import throws, naming
    the first of them that is missing, in the order the module reads
    them. *)
Theorem load_requires (env : Env) :
  match firstMissing env requiredVariables with
  | Some name => load env = inl (errMissingEnv name)
  | None =>
    exists settings,
      load env = inr settings
      /\ env (js "GOOGLE_SHEET_ID") = Some (spreadsheetId (google settings))
      /\ env (js "GOOGLE_DRIVE_FOLDER_ID") = Some (folderId (google settings))
      /\ env (js "GOOGLE_REFRESH_TOKEN")
         = Some (refreshToken (google settings))
      /\ spreadsheetId (google settings) <> []
      /\ folderId (google settings) <> []
      /\ refreshToken (google settings) <> []
  end.
Proof.
  unfold firstMissing, requiredVariables, load, GOOGLE_CONFIG, AI_CONFIG,
    requireEnv.
  cbn [find].
  destruct (env (js "GOOGLE_SHEET_ID")) as [[|c1 v1]|]; cbn [truthy negb];
    try reflexivity.
  destruct (env (js "GOOGLE_DRIVE_FOLDER_ID")) as [[|c2 v2]|];
    cbn [truthy negb]; try reflexivity.
  destruct (env (js "GOOGLE_CLIENT_ID")) as [[|c3 v3]|]; cbn [truthy negb];
    try reflexivity.
  destruct (env (js "GOOGLE_CLIENT_SECRET")) as [[|c4 v4]|];
    cbn [truthy negb]; try reflexivity.
  destruct (env (js "GOOGLE_REFRESH_TOKEN")) as [[|c5 v5]|];
    cbn [truthy negb]; try reflexivity.
  destruct (env (js "GROQ_API_KEY")) as [[|c6 v6]|]; cbn [truthy negb];
    try reflexivity.
  eexists. split; [reflexivity|].
  cbn [google spreadsheetId folderId refreshToken orEmpty].
  repeat split; discriminate.
Qed.

(** X16. [validateConfig] passes exactly when the port is a whole number from
    0 to 65535 and neither comparison of the rows holds; a row that is not
    a number makes no comparison hold, so it is let through. *)
Theorem validateConfig_accepts (settings : Settings) :
  (validateConfig settings = inr tt
   <-> (exists port, healthPort (whatsapp settings) = Finite port
                     /\ 0 <= port <= 65535)
       /\ lessThan (nameStartRow (spreadsheet settings)) (Finite 1) = false
       /\ lessThan (nameEndRow (spreadsheet settings))
                   (nameStartRow (spreadsheet settings)) = false)
  /\ (nameStartRow (spreadsheet settings) = NaN ->
      forall port, healthPort (whatsapp settings) = Finite port ->
                   0 <= port <= 65535 ->
                   validateConfig settings = inr tt).
Proof.
  unfold validateConfig. cbv zeta.
  destruct (healthPort (whatsapp settings)) as [ | neg | port];
    cbn [isInteger negb].
  - split.
    + split; [discriminate|]. intros ((p & E & _) & _). discriminate.
    + intros _ p E. discriminate.
  - split.
    + split; [discriminate|]. intros ((p & E & _) & _). discriminate.
    + intros _ p E. discriminate.
  - cbn [lessThan].
    destruct (port <? 0) eqn:E1; [|destruct (65535 <? port) eqn:E2];
      cbn [orb].
    + apply Z.ltb_lt in E1. split.
      * split; [discriminate|]. intros ((p & [= <-] & Hp) & _). lia.
      * intros _ p [= <-] Hp. lia.
    + apply Z.ltb_lt in E2. split.
      * split; [discriminate|]. intros ((p & [= <-] & Hp) & _). lia.
      * intros _ p [= <-] Hp. lia.
    + apply Z.ltb_ge in E1, E2. split.
      * destruct (lessThan (nameStartRow _) (Finite 1)) eqn:E3.
        { split; [discriminate|]. intros (_ & H & _). discriminate. }
        destruct (lessThan (nameEndRow _) (nameStartRow _)) eqn:E4.
        { split; [discriminate|]. intros (_ & _ & H). discriminate. }
        split; [|reflexivity]. intros _. split; [|auto].
        exists port. split; [reflexivity | lia].
      * intros Hn p _ _. rewrite Hn. cbn [lessThan].
        destruct (nameEndRow (spreadsheet settings)) as [ | [|] | v];
          reflexivity.
Qed.

Lemma digitsValue_some (s : jsstring) (a : Z) :
  digitsValue s (Some a) <> None.
Proof.
  revert a; induction s as [|c r IH]; intros a; cbn [digitsValue].
  - discriminate.
  - destruct (isDigit c); [apply IH | discriminate].
Qed.

Lemma toDouble_number (v : Z) : toDouble v <> NaN.
Proof.
  unfold toDouble. destruct (v <? 2 ^ 53); [discriminate|].
  cbv zeta. destruct (2 ^ 1024 <=? _); discriminate.
Qed.

Lemma parseInt10_NaN (raw : jsstring) :
  parseInt10 raw = NaN <-> startsWithNumber raw = false.
Proof.
  unfold parseInt10, startsWithNumber. cbv zeta.
  destruct (unsigned (trimStart raw)) as [|c r]; cbn [digitsValue].
  - split; reflexivity.
  - destruct (isDigit c).
    + split; [|discriminate].
      destruct (digitsValue r _) as [v|] eqn:E.
      * pose proof (toDouble_number v) as Hv.
        destruct (startsWith _ _); [|contradiction].
        destruct (toDouble v); [contradiction | discriminate | discriminate].
      * apply digitsValue_some in E. contradiction.
    + split; reflexivity.
Qed.

(** X17. A [HEALTH_PORT] that is set is the port, whatever [PORT] and
    [SERVER_PORT] are: set to a text that does not start with a number, the
    empty text too, it is not replaced by them nor by 3001, and
    [validateConfig] throws. *)
Theorem health_port_not_replaced (env : Env) (raw : jsstring)
    (settings : Settings) :
  env (js "HEALTH_PORT") = Some raw ->
  load env = inr settings ->
  healthPort (whatsapp settings) = parseInt10 raw
  /\ (startsWithNumber raw = false ->
      validateConfig settings = inl errPortNotInteger).
Proof.
  intros He Hl.
  assert (Hp : healthPort (whatsapp settings) = parseInt10 raw).
  { unfold load in Hl.
    destruct (GOOGLE_CONFIG env); [discriminate|].
    destruct (AI_CONFIG env); [discriminate|].
    injection Hl as <-. cbn [whatsapp WHATSAPP_CONFIG healthPort].
    unfold resolveHealthPort. rewrite He. reflexivity. }
  split; [exact Hp|].
  intros Hn. apply parseInt10_NaN in Hn.
  unfold validateConfig. cbv zeta. rewrite Hp, Hn. reflexivity.
Qed.

(** X18. With the required variables set and none of the others, the loaded
    settings pass [validateConfig] and are the defaults: the sheets
    Comprovantes and Main, the rows 2 to 29, the separator [;], the port
    3001, and no group, which is the mode in which no message is
    processed. *)
Theorem load_defaults (env : Env) (sheet folder : jsstring) :
  firstMissing env requiredVariables = None ->
  env (js "GOOGLE_SHEET_ID") = Some sheet ->
  env (js "GOOGLE_DRIVE_FOLDER_ID") = Some folder ->
  (forall name, In name optionalVariables -> env name = None) ->
  exists settings,
    load env = inr settings
    /\ validateConfig settings = inr tt
    /\ asConfig settings = Some (defaultConfig sheet folder)
    /\ healthPort (whatsapp settings) = Finite 3001
    /\ groupJid (whatsapp settings) = [].
Proof.
  intros Hreq Hs Hf Hopt.
  assert (Ho : forall name, existsb (eqb name) optionalVariables = true ->
                            env name = None).
  { intros name Hn. apply Hopt. apply existsb_exists in Hn.
    destruct Hn as (x & Hx & Ex). apply eqb_eq in Ex. subst x. exact Hx. }
  revert Hreq.
  unfold firstMissing, requiredVariables, load, GOOGLE_CONFIG, AI_CONFIG,
    requireEnv.
  cbn [find]. rewrite Hs, Hf.
  destruct sheet as [|c1 v1]; cbn [truthy negb]; try discriminate.
  destruct folder as [|c2 v2]; cbn [truthy negb]; try discriminate.
  destruct (env (js "GOOGLE_CLIENT_ID")) as [[|c3 v3]|]; cbn [truthy negb];
    try discriminate.
  destruct (env (js "GOOGLE_CLIENT_SECRET")) as [[|c4 v4]|];
    cbn [truthy negb]; try discriminate.
  destruct (env (js "GOOGLE_REFRESH_TOKEN")) as [[|c5 v5]|];
    cbn [truthy negb]; try discriminate.
  destruct (env (js "GROQ_API_KEY")) as [[|c6 v6]|]; cbn [truthy negb];
    try discriminate.
  intros _. eexists. split; [reflexivity|].
  unfold validateConfig, asConfig, WHATSAPP_CONFIG, SPREADSHEET_CONFIG,
    resolveHealthPort, optionalEnv.
  cbn [whatsapp spreadsheet google healthPort groupJid nameStartRow nameEndRow
       formulaSeparator Environment.spreadsheetId Environment.folderId
       Environment.sheetName Environment.mainSheetName orEmpty].
  rewrite !Ho by (vm_compute; reflexivity).
  repeat split.
Qed.

End Settings.

Section Auth.
Import Environment GoogleAuth.

(** X19. Once [config.ts] has loaded, [getAuthClient] does not throw: the
    first call makes a client with the refresh token of the environment and
    keeps it, and a later call returns the client that was kept. *)
Theorem getAuthClient_after_load (env : Env) (settings : Settings) :
  load env = inr settings ->
  exists client,
    getAuthClient (google settings) None = (inr client, Some client)
    /\ getAuthClient (google settings) (Some client) = (inr client, Some client)
    /\ env (js "GOOGLE_REFRESH_TOKEN") = credentials client
    /\ env (js "GOOGLE_CLIENT_ID") = Some (client_id client)
    /\ env (js "GOOGLE_CLIENT_SECRET") = Some (client_secret client).
Proof.
  unfold load, GOOGLE_CONFIG, AI_CONFIG, requireEnv.
  destruct (env (js "GOOGLE_SHEET_ID")) as [[|c1 v1]|]; cbn [truthy negb];
    try discriminate.
  destruct (env (js "GOOGLE_DRIVE_FOLDER_ID")) as [[|c2 v2]|];
    cbn [truthy negb]; try discriminate.
  destruct (env (js "GOOGLE_CLIENT_ID")) as [[|c3 v3]|]; cbn [truthy negb];
    try discriminate.
  destruct (env (js "GOOGLE_CLIENT_SECRET")) as [[|c4 v4]|];
    cbn [truthy negb]; try discriminate.
  destruct (env (js "GOOGLE_REFRESH_TOKEN")) as [[|c5 v5]|];
    cbn [truthy negb]; try discriminate.
  destruct (env (js "GROQ_API_KEY")) as [[|c6 v6]|]; cbn [truthy negb];
    try discriminate.
  intros [= <-]. eexists. cbn. repeat split.
Qed.

End Auth.

(* ================================================================== *)
(** * The handlers of whatsapp.ts *)
(* ================================================================== *)

Section Metrics.
Import WhatsApp.

(** X20. For a clock that has not gone back, the uptime text of
    [formatMetrics] is [<h>h <m>m <s>s] with minutes and seconds below 60,
    the three add up to [uptimeSeconds], and that is the whole seconds
    since the start. *)
Theorem formatMetrics_uptime (now : Z) (m : AppMetrics) :
  startedAt m <= now ->
  exists hours minutes seconds,
    uptime (formatMetrics now m)
    = numberToString hours ++ js "h " ++ numberToString minutes
      ++ js "m " ++ numberToString seconds ++ js "s"
    /\ 0 <= hours /\ 0 <= minutes < 60 /\ 0 <= seconds < 60
    /\ hours * 3600 + minutes * 60 + seconds
       = uptimeSeconds (formatMetrics now m)
    /\ 1000 * uptimeSeconds (formatMetrics now m) <= now - startedAt m
       < 1000 * uptimeSeconds (formatMetrics now m) + 1000.
Proof.
  intros Hnow. unfold formatMetrics, getUptimeSeconds.
  cbn [uptime uptimeSeconds].
  set (u := (now - startedAt m) / 1000).
  assert (Hu : 0 <= u) by (subst u; apply Z.div_pos; lia).
  exists (u / 3600), (Z.rem u 3600 / 60), (Z.rem u 60).
  split; [reflexivity|].
  rewrite !Z.rem_mod_nonneg by lia.
  assert (Hd : 1000 * u <= now - startedAt m < 1000 * u + 1000).
  { subst u. pose proof (Z.div_mod (now - startedAt m) 1000 ltac:(lia)).
    pose proof (Z.mod_pos_bound (now - startedAt m) 1000 ltac:(lia)). lia. }
  pose proof (Z.div_mod u 3600 ltac:(lia)) as H1.
  pose proof (Z.mod_pos_bound u 3600 ltac:(lia)) as H2.
  pose proof (Z.div_mod (u mod 3600) 60 ltac:(lia)) as H3.
  pose proof (Z.mod_pos_bound (u mod 3600) 60 ltac:(lia)) as H4.
  assert (H5 : (u mod 3600) mod 60 = u mod 60).
  { symmetry. rewrite (Z.div_mod u 3600) at 1 by lia.
    replace (3600 * (u / 3600) + u mod 3600)
      with (u mod 3600 + (60 * (u / 3600)) * 60) by lia.
    apply Z.mod_add. lia. }
  assert (0 <= u / 3600) by (apply Z.div_pos; lia).
  assert (0 <= (u mod 3600) / 60 < 60).
  { split; [apply Z.div_pos; lia|]. apply Z.div_lt_upper_bound; lia. }
  pose proof (Z.mod_pos_bound u 60 ltac:(lia)).
  repeat split; try lia.
Qed.

Lemma formatMetrics_uptime_witness :
  exists hours minutes seconds,
    uptime (formatMetrics 3725999
              {| messagesReceived := 0; messagesProcessed := 0; errors := 0;
                 reconnections := 0; startedAt := 0; connected := true |})
    = numberToString hours ++ js "h " ++ numberToString minutes
      ++ js "m " ++ numberToString seconds ++ js "s"
    /\ 0 <= hours /\ 0 <= minutes < 60 /\ 0 <= seconds < 60
    /\ hours * 3600 + minutes * 60 + seconds = 3725.
Proof.
  destruct (formatMetrics_uptime 3725999
              {| messagesReceived := 0; messagesProcessed := 0; errors := 0;
                 reconnections := 0; startedAt := 0; connected := true |})
    as (h & mi & s & H1 & H2 & H3 & H4 & H5 & _).
  - simpl. lia.
  - exists h, mi, s. repeat split; try assumption; try lia.
Defined.

End Metrics.

Section Reconnect.
Import WhatsApp.
Context {host : Host}.

Lemma handleConnectionUpdate_step (u : ConnectionUpdate) (st st' : Session)
    (b : bool) :
  handleConnectionUpdate u st = (st', Returned b) ->
  attempts st <= maxReconnectAttempts ->
  attempts st' <= maxReconnectAttempts
  /\ (b = true -> connection u = Some ConnClose
                  /\ attempts st' = attempts st + 1)
  /\ (connection u <> Some ConnOpen -> attempts st <= attempts st').
Proof.
  unfold handleConnectionUpdate, maxReconnectAttempts.
  destruct (truthy (qr u)).
  - destruct (encodeURIComponent _) as [e | encoded]; [discriminate|].
    destruct (connection u) as [[ | | ]|]; cbn [attempts metrics currentQRCodeUrl].
    + intros [= <- <-]. cbn. intros. repeat split; try lia; try discriminate.
      congruence.
    + intros [= <- <-]. cbn. intros. repeat split; try lia; discriminate.
    + destruct (_ =? loggedOut); [discriminate|].
      destruct (_ >? 10) eqn:E; [discriminate|].
      intros [= <- <-]. cbn. intros. repeat split; lia.
    + intros [= <- <-]. cbn. intros. repeat split; try lia; discriminate.
  - destruct (connection u) as [[ | | ]|]; cbn [attempts metrics currentQRCodeUrl].
    + intros [= <- <-]. cbn. intros. repeat split; try lia; try discriminate.
      congruence.
    + intros [= <- <-]. intros. repeat split; try lia; discriminate.
    + destruct (_ =? loggedOut); [discriminate|].
      destruct (_ >? 10) eqn:E; [discriminate|].
      intros [= <- <-]. cbn. intros. repeat split; lia.
    + intros [= <- <-]. intros. repeat split; try lia; discriminate.
Qed.

(** X21. Between two openings of the connection at most
    [maxReconnectAttempts] reconnections are scheduled: over any updates none
    of which opens the connection, the calls of [scheduleReconnect] number
    at most 10 less the attempts already made. *)
Theorem reconnects_bounded (updates : list ConnectionUpdate) (st : Session) :
  (forall u, In u updates -> connection u <> Some ConnOpen) ->
  attempts st <= maxReconnectAttempts ->
  scheduledReconnects (snd (connectionUpdates updates st))
  <= maxReconnectAttempts - attempts st.
Proof.
  unfold scheduledReconnects, maxReconnectAttempts.
  revert st; induction updates as [|u rest IH]; intros st Hno Hst.
  - cbn [connectionUpdates snd filter length Z.of_nat]. lia.
  - cbn [connectionUpdates].
    destruct (handleConnectionUpdate u st) as [st' [b | code | e]] eqn:E.
    + destruct (handleConnectionUpdate_step u st st' b E Hst) as (H1 & H2 & H3).
      specialize (IH st' (fun v Hv => Hno v (or_intror Hv)) H1).
      specialize (H3 (Hno u (or_introl eq_refl))).
      cbn [snd filter]. destruct b.
      * destruct (H2 eq_refl) as [_ H4]. cbn [length]. lia.
      * lia.
    + cbn [snd filter length Z.of_nat]. lia.
    + cbn [snd filter length Z.of_nat]. lia.
Qed.

End Reconnect.

Section ReconnectLimit.
Import WhatsApp.
Context {host : Host}.

Lemma plainClose_step (u : ConnectionUpdate) (st : Session) :
  isPlainClose u = true ->
  handleConnectionUpdate u st
  = ({| attempts := attempts st + 1;
        metrics := reconnected (setConnected false (metrics st));
        currentQRCodeUrl := currentQRCodeUrl st |},
     if attempts st + 1 >? maxReconnectAttempts then Exited 1
     else Returned true).
Proof.
  unfold isPlainClose, handleConnectionUpdate.
  destruct (connection u) as [[ | | ]|]; try discriminate.
  intros H. apply andb_true_iff in H as [H1 H2].
  apply negb_true_iff in H1, H2. rewrite H2, H1.
  cbn [attempts metrics currentQRCodeUrl].
  destruct (attempts st + 1 >? maxReconnectAttempts); reflexivity.
Qed.

(** X22. Closes in a row that are no logout: each of the first
    [maxReconnectAttempts] schedules a reconnection, the next one exits the
    process with code 1; the closes are all counted as reconnections, the
    last one too. *)
Theorem close_after_limit_exits (updates : list ConnectionUpdate)
    (st : Session) :
  forallb isPlainClose updates = true ->
  attempts st <= maxReconnectAttempts ->
  Z.of_nat (length updates) = maxReconnectAttempts + 1 - attempts st ->
  snd (connectionUpdates updates st)
  = repeat (Returned true) (Z.to_nat (maxReconnectAttempts - attempts st))
    ++ [Exited 1]
  /\ attempts (fst (connectionUpdates updates st)) = maxReconnectAttempts + 1
  /\ reconnections (metrics (fst (connectionUpdates updates st)))
     = reconnections (metrics st) + Z.of_nat (length updates)
  /\ connected (metrics (fst (connectionUpdates updates st))) = false.
Proof.
  unfold maxReconnectAttempts.
  revert st; induction updates as [|u rest IH]; intros st Hall Hst Hlen.
  - cbn [length] in Hlen. lia.
  - cbn [forallb] in Hall. apply andb_true_iff in Hall as [Hu Hrest].
    cbn [connectionUpdates]. rewrite (plainClose_step u st Hu).
    unfold maxReconnectAttempts.
    destruct (attempts st + 1 >? 10) eqn:E.
    + assert (Ha : attempts st = 10) by lia.
      assert (rest = []) as ->.
      { destruct rest; [reflexivity|]. cbn [length] in Hlen. lia. }
      rewrite Ha. cbn. repeat split; lia.
    + set (st1 := {| attempts := attempts st + 1;
                     metrics := reconnected (setConnected false (metrics st));
                     currentQRCodeUrl := currentQRCodeUrl st |}).
      specialize (IH st1 Hrest).
      assert (H1 : attempts st1 = attempts st + 1) by reflexivity.
      assert (H2 : reconnections (metrics st1)
                   = reconnections (metrics st) + 1) by reflexivity.
      rewrite H1, H2 in IH.
      destruct IH as (I1 & I2 & I3 & I4);
        [lia | cbn [length] in Hlen; lia |].
      cbn [fst snd]. rewrite I1, I2, I3, I4.
      replace (Z.to_nat (10 - attempts st))
        with (Datatypes.S (Z.to_nat (10 - (attempts st + 1)))) by lia.
      cbn [repeat app length]. repeat split; lia.
Qed.

(** X23. The process exits from [handleConnectionUpdate] only on a close and
    with code 1: for a logout, which is not counted as an attempt nor as a
    reconnection, or when the attempts were used up. *)
Theorem exit_only_on_close (u : ConnectionUpdate) (st st' : Session)
    (code : Z) :
  handleConnectionUpdate u st = (st', Exited code) ->
  code = 1
  /\ connection u = Some ConnClose
  /\ connected (metrics st') = false
  /\ ((extractDisconnectStatusCode (lastDisconnect u) = loggedOut
       /\ attempts st' = attempts st
       /\ reconnections (metrics st') = reconnections (metrics st))
      \/ (extractDisconnectStatusCode (lastDisconnect u) <> loggedOut
          /\ maxReconnectAttempts <= attempts st
          /\ attempts st' = attempts st + 1
          /\ reconnections (metrics st') = reconnections (metrics st) + 1)).
Proof.
  unfold handleConnectionUpdate, maxReconnectAttempts.
  destruct (truthy (qr u)).
  - destruct (encodeURIComponent _) as [e | encoded]; [discriminate|].
    destruct (connection u) as [[ | | ]|]; try discriminate.
    cbn [attempts metrics currentQRCodeUrl].
    destruct (_ =? loggedOut) eqn:El.
    + intros [= <- <-]. apply Z.eqb_eq in El. cbn. auto 10.
    + destruct (_ >? 10) eqn:E; [|discriminate].
      intros [= <- <-]. apply Z.eqb_neq in El. cbn.
      split; [reflexivity|]. split; [reflexivity|]. split; [reflexivity|].
      right. split; [exact El|]. repeat split; lia.
  - destruct (connection u) as [[ | | ]|]; try discriminate.
    cbn [attempts metrics currentQRCodeUrl].
    destruct (_ =? loggedOut) eqn:El.
    + intros [= <- <-]. apply Z.eqb_eq in El. cbn. auto 10.
    + destruct (_ >? 10) eqn:E; [|discriminate].
      intros [= <- <-]. apply Z.eqb_neq in El. cbn.
      split; [reflexivity|]. split; [reflexivity|]. split; [reflexivity|].
      right. split; [exact El|]. repeat split; lia.
Qed.

End ReconnectLimit.

Section Messages.
Import WhatsApp.
Context {U : Unicode} {host : Host}.
Variable wcfg : Environment.WhatsAppSettings.
Variable cfg : Config.

Lemma handleMessage_cases (download : Download) (msg : WAMessage)
    (startTime : Z) (m : AppMetrics) :
  handleMessage wcfg cfg download msg startTime m = Ret (received m)
  \/ (handleMessage wcfg cfg download msg startTime m
      = processMessage cfg download msg (received m)
      /\ fromMe (key msg) <> Some true
      /\ remoteJid (key msg) = Some (Environment.groupJid wcfg)
      /\ shouldIgnoreJid (Some (Environment.groupJid wcfg)) = false
      /\ has IGNORED_MESSAGE_TYPES (getMessageType (message msg)) = false
      /\ (toUnixTimestamp (messageTimestamp msg) <= 0
          \/ startTime <= toUnixTimestamp (messageTimestamp msg))).
Proof.
  unfold handleMessage, processMessage.
  destruct (fromMe (key msg)) as [[|]|] eqn:Ef; auto.
  all: destruct (message msg) as [im|] eqn:Em; auto.
  all: destruct ((0 <? _) && _) eqn:Et; auto.
  all: destruct (has _ _) eqn:Ety; auto.
  all: destruct (shouldIgnoreJid _) eqn:Ej; auto.
  all: destruct (truthy (Some (Environment.groupJid wcfg))) eqn:Eg; auto.
  all: destruct (eqb _ (Environment.groupJid wcfg)) eqn:Ee; auto.
  all: right; cbn [negb]; split; [reflexivity|].
  all: apply eqb_eq in Ee.
  all: assert (Er : remoteJid (key msg) = Some (Environment.groupJid wcfg))
         by (destruct (remoteJid (key msg)); cbn [orEmpty] in Ee;
             [congruence | rewrite <- Ee in Eg; discriminate]).
  all: rewrite Er in Ej.
  all: split; [discriminate|]; split; [exact Er|]; split; [exact Ej|];
       split; [reflexivity|].
  all: apply andb_false_iff in Et as [Et | Et];
       [apply Z.ltb_ge in Et; left; exact Et
       | apply Z.ltb_ge in Et; right; exact Et].
Qed.

Context {S : Type} (h : handler S).

Lemma processPixReceipt_returns (input : PixReceiptInput) (s : S) :
  exists r, result (run h (processPixReceipt cfg input) s) = inr r.
Proof.
  rewrite processPixReceipt_run. cbn [result fst].
  destruct (result (run h (processPixReceiptTry cfg input) s)); eauto.
Qed.

Lemma processMessage_image (download : Download) (msg : WAMessage)
    (m : AppMetrics) (input : PixReceiptInput) (s : S) :
  saveIncomingImage download msg = inr (Some input) ->
  exists r,
    result (run h (processPixReceipt cfg input) s) = inr r
    /\ result (run h (processMessage cfg download msg m) s)
       = inr (if res_success r then processed m
              else match res_reason r with
                   | Some NotPix => m
                   | _ => failed m
                   end)
    /\ trace (run h (processMessage cfg download msg m) s)
       = trace (run h (processPixReceipt cfg input) s).
Proof.
  intros E. unfold processMessage. rewrite E, run_tryCatch.
  cbn [bind Monad_Prog]. rewrite run_bind.
  destruct (processPixReceipt_returns input s) as [r Hr].
  exists r. split; [exact Hr|]. rewrite Hr. cbv zeta.
  destruct (res_success r); cbn [negb].
  - cbn [run result final trace fst snd]. rewrite app_nil_r. auto.
  - destruct (res_reason r) as [[|]|];
      cbn [run result final trace fst snd]; rewrite app_nil_r; auto.
Qed.

Lemma processMessage_no_image (download : Download) (msg : WAMessage)
    (m : AppMetrics) (s : S) :
  (forall input, saveIncomingImage download msg <> inr (Some input)) ->
  trace (run h (processMessage cfg download msg m) s) = []
  /\ (result (run h (processMessage cfg download msg m) s) = inr m
      \/ result (run h (processMessage cfg download msg m) s)
         = inr (failed m)).
Proof.
  intros H. unfold processMessage.
  destruct (saveIncomingImage download msg) as [e | [input|]] eqn:E.
  - cbn. auto.
  - destruct (H input). reflexivity.
  - cbn. auto.
Qed.

(** X24. [handleMessage] never throws. It counts the message as received,
    and as processed or as an error or as neither, never as both; the other
    counters are left as they were. *)
Theorem handleMessage_accounting (download : Download) (msg : WAMessage)
    (startTime : Z) (m : AppMetrics) (s : S) :
  exists m',
    result (run h (handleMessage wcfg cfg download msg startTime m) s) = inr m'
    /\ messagesReceived m' = messagesReceived m + 1
    /\ ((messagesProcessed m' = messagesProcessed m /\ errors m' = errors m)
        \/ (messagesProcessed m' = messagesProcessed m + 1
            /\ errors m' = errors m)
        \/ (messagesProcessed m' = messagesProcessed m
            /\ errors m' = errors m + 1))
    /\ reconnections m' = reconnections m
    /\ startedAt m' = startedAt m
    /\ connected m' = connected m.
Proof.
  destruct (handleMessage_cases download msg startTime m)
    as [-> | (-> & _)].
  - exists (received m). cbn. auto 10.
  - destruct (saveIncomingImage download msg) as [e | [input|]] eqn:E.
    + destruct (processMessage_no_image download msg (received m) s)
        as [_ [-> | ->]]; [rewrite E; discriminate | |];
        eexists; (split; [reflexivity|]); cbn; auto 10.
    + destruct (processMessage_image download msg (received m) input s E)
        as (r & _ & -> & _).
      eexists; split; [reflexivity|].
      destruct (res_success r); [cbn; auto 10|].
      destruct (res_reason r) as [[|]|]; cbn; auto 10.
    + destruct (processMessage_no_image download msg (received m) s)
        as [_ [-> | ->]]; [rewrite E; discriminate | |];
        eexists; (split; [reflexivity|]); cbn; auto 10.
Qed.

Lemma processPixReceipt_first_call (input : PixReceiptInput) (s : S) :
  exists o rest,
    trace (run h (processPixReceipt cfg input) s)
    = Ev (ReadImage (imageBuffer input) (inputMime input)) o :: rest.
Proof.
  rewrite processPixReceipt_run. cbn [trace snd].
  unfold processPixReceiptTry. cbn [bind Monad_Prog].
  rewrite (run_call_bind h (ReadImage _ _)).
  destruct (fst (h (ReadImage _ _) s)); cbn [trace snd]; eauto.
Qed.

Lemma processPixReceipt_writes (input : PixReceiptInput) (s : S)
    (r : ProcessResult) :
  result (run h (processPixReceipt cfg input) s) = inr r ->
  (res_success r = true
   <-> map succeeded (updates (trace (run h (processPixReceipt cfg input) s)))
       = [true; true]).
Proof.
  rewrite processPixReceipt_run. cbn [result trace fst snd].
  destruct (h (ReadImage (imageBuffer input) (inputMime input)) s)
    as [[e | nome] s1] eqn:E1.
  - unfold processPixReceiptTry. cbn [bind Monad_Prog].
    rewrite (run_call_bind h (ReadImage _ _)), E1. cbn.
    intros [= <-]. cbn. split; discriminate.
  - destruct (eqb nome sentinel) eqn:En.
    + unfold processPixReceiptTry. cbn [bind Monad_Prog].
      rewrite (run_call_bind h (ReadImage _ _)), E1.
      cbn [fst snd]. rewrite En. cbn.
      intros [= <-]. cbn. split; discriminate.
    + destruct (h ToLocaleMonth s1) as [[e | month] s2] eqn:E2.
      * unfold processPixReceiptTry, getCurrentMonthName.
        cbn [bind Monad_Prog].
        rewrite (run_call_bind h (ReadImage _ _)), E1.
        cbn [fst snd]. rewrite En.
        cbn [run bindProg call bind ret Monad_Prog result final trace fst snd].
        rewrite E2. cbn.
        intros [= <-]. cbn. split; discriminate.
      * destruct (processPixReceiptTry_run cfg h input s s1 s2 nome month
                    E1 En E2) as [Hr Ht].
        rewrite Hr, Ht. cbn [updates filter isSheetsUpdate ev_op].
        fold (updates (trace (run h (planilha cfg (capitalizeName nome)
                (inr (receiptOf input nome month))
                (Some (capitalizeMonth month)) None) s2))).
        destruct (planilha_updates cfg h (capitalizeName nome)
                    (inr (receiptOf input nome month))
                    (Some (capitalizeMonth month)) None s2)
          as [(Eu & e & Er) | [(range & link & o1 & _ & Eu & e & Er)
                              | (range & link & mainCell & o2 & _ & Eu & Er)]];
          rewrite Eu, Er; cbn [map succeeded ev_out].
        -- intros [= <-]. cbn. split; discriminate.
        -- intros [= <-]. cbn. split; [discriminate|].
           destruct o1; discriminate.
        -- destruct o2 as [e | u]; intros [= <-]; cbn;
             split; try discriminate; reflexivity.
Qed.

Lemma saveIncomingImage_some (download : Download) (msg : WAMessage)
    (input : PixReceiptInput) :
  saveIncomingImage download msg = inr (Some input) ->
  exists image b body,
    extractImageMessage (message msg) = Some image
    /\ download msg = inr (Some (b :: body))
    /\ input = {| imageBuffer := b :: body;
                  extension := WhatsApp.extensionFromMime (mimetype image);
                  inputMimeType :=
                    Some (match mimetype image with
                          | Some mime => mime
                          | None => js "image/jpeg"
                          end) |}.
Proof.
  unfold saveIncomingImage.
  destruct (extractImageMessage (message msg)) as [image|]; [|discriminate].
  destruct (download msg) as [e | [[|b body]|]]; try discriminate.
  intros [= <-]. eauto 10.
Qed.

(** X25. Whatever [handleMessage] calls of the classifier, Sheets or Drive, it
    calls for an image of the configured group that the bot did not send
    itself, that is not older than the start (or has no time) and whose type
    is not an ignored one, and the first call hands the downloaded bytes and
    the type of the image, or [image/jpeg], to the classifier. With no group
    configured it calls nothing. *)
Theorem handleMessage_filters (download : Download) (msg : WAMessage)
    (startTime : Z) (m : AppMetrics) (s : S) :
  trace (run h (handleMessage wcfg cfg download msg startTime m) s) <> [] ->
  remoteJid (key msg) = Some (Environment.groupJid wcfg)
  /\ Environment.groupJid wcfg <> []
  /\ shouldIgnoreJid (Some (Environment.groupJid wcfg)) = false
  /\ fromMe (key msg) <> Some true
  /\ (toUnixTimestamp (messageTimestamp msg) <= 0
      \/ startTime <= toUnixTimestamp (messageTimestamp msg))
  /\ has IGNORED_MESSAGE_TYPES (getMessageType (message msg)) = false
  /\ exists image b body o rest,
       extractImageMessage (message msg) = Some image
       /\ download msg = inr (Some (b :: body))
       /\ trace (run h (handleMessage wcfg cfg download msg startTime m) s)
          = Ev (ReadImage (b :: body)
                  (match mimetype image with
                   | Some mime => mime
                   | None => js "image/jpeg"
                   end)) o :: rest.
Proof.
  destruct (handleMessage_cases download msg startTime m)
    as [-> | (-> & Hme & Hjid & Hig & Hty & Hts)].
  - cbn. intros H. destruct H. reflexivity.
  - intros H. split; [exact Hjid|]. split.
    { intros E. rewrite E in Hig. discriminate. }
    split; [exact Hig|]. split; [exact Hme|]. split; [exact Hts|].
    split; [exact Hty|].
    destruct (saveIncomingImage download msg) as [e | [input|]] eqn:E.
    + destruct (processMessage_no_image download msg (received m) s)
        as [Ht _]; [rewrite E; discriminate | contradiction].
    + destruct (processMessage_image download msg (received m) input s E)
        as (r & _ & _ & Ht).
      destruct (saveIncomingImage_some download msg input E)
        as (image & b & body & Hi & Hd & ->).
      destruct (processPixReceipt_first_call
                  {| imageBuffer := b :: body;
                     extension := WhatsApp.extensionFromMime (mimetype image);
                     inputMimeType :=
                       Some (match mimetype image with
                             | Some mime => mime
                             | None => js "image/jpeg"
                             end) |} s) as (o & rest & Hf).
      exists image, b, body, o, rest.
      split; [exact Hi|]. split; [exact Hd|]. rewrite Ht. exact Hf.
    + destruct (processMessage_no_image download msg (received m) s)
        as [Ht _]; [rewrite E; discriminate | contradiction].
Qed.

(** X26. [handleMessage] counts a message as processed exactly when its two
    writes to the spreadsheet were made and both succeeded. *)
Theorem handleMessage_processed_iff (download : Download) (msg : WAMessage)
    (startTime : Z) (m m' : AppMetrics) (s : S) :
  result (run h (handleMessage wcfg cfg download msg startTime m) s) = inr m' ->
  (messagesProcessed m' = messagesProcessed m + 1
   <-> map succeeded
         (updates (trace (run h (handleMessage wcfg cfg download msg
                                   startTime m) s)))
       = [true; true]).
Proof.
  destruct (handleMessage_cases download msg startTime m)
    as [-> | (-> & _)].
  - cbn. intros [= <-]. cbn. split; [lia | discriminate].
  - destruct (saveIncomingImage download msg) as [e | [input|]] eqn:E.
    + destruct (processMessage_no_image download msg (received m) s)
        as [-> [-> | ->]]; [rewrite E; discriminate | |];
        intros [= <-]; cbn; (split; [lia | discriminate]).
    + destruct (processMessage_image download msg (received m) input s E)
        as (r & Hr & -> & ->).
      pose proof (processPixReceipt_writes input s r Hr) as Hw.
      intros [= <-]. rewrite <- Hw.
      destruct (res_success r); [cbn; split; [reflexivity | lia]|].
      destruct (res_reason r) as [[|]|]; cbn; split; try lia; discriminate.
    + destruct (processMessage_no_image download msg (received m) s)
        as [-> [-> | ->]]; [rewrite E; discriminate | |];
        intros [= <-]; cbn; (split; [lia | discriminate]).
Qed.

Lemma handleMessage_run (download : Download) (msg : WAMessage)
    (startTime : Z) (m : AppMetrics) (s : S) :
  exists m',
    result (run h (handleMessage wcfg cfg download msg startTime m) s) = inr m'
    /\ messagesReceived m' = messagesReceived m + 1
    /\ messagesProcessed m <= messagesProcessed m'
    /\ errors m <= errors m'
    /\ (messagesProcessed m' - messagesProcessed m) + (errors m' - errors m)
       <= 1.
Proof.
  destruct (handleMessage_cases download msg startTime m)
    as [-> | (-> & _)].
  - exists (received m). cbn. repeat split; lia.
  - destruct (saveIncomingImage download msg) as [e | [input|]] eqn:E.
    + destruct (processMessage_no_image download msg (received m) s)
        as [_ [-> | ->]]; [rewrite E; discriminate | |];
        eexists; (split; [reflexivity|]); cbn; repeat split; lia.
    + destruct (processMessage_image download msg (received m) input s E)
        as (r & _ & -> & _).
      eexists; split; [reflexivity|].
      destruct (res_success r); [cbn; repeat split; lia|].
      destruct (res_reason r) as [[|]|]; cbn; repeat split; lia.
    + destruct (processMessage_no_image download msg (received m) s)
        as [_ [-> | ->]]; [rewrite E; discriminate | |];
        eexists; (split; [reflexivity|]); cbn; repeat split; lia.
Qed.

Lemma handleMessages_run (download : Download) (messages : list WAMessage)
    (startTime : Z) (m : AppMetrics) (s : S) :
  exists m',
    result (run h (handleMessages wcfg cfg download messages startTime m) s)
    = inr m'
    /\ messagesReceived m' = messagesReceived m + Z.of_nat (length messages)
    /\ messagesProcessed m <= messagesProcessed m'
    /\ errors m <= errors m'
    /\ (messagesProcessed m' - messagesProcessed m) + (errors m' - errors m)
       <= Z.of_nat (length messages).
Proof.
  revert m s; induction messages as [|msg rest IH]; intros m s.
  - exists m. cbn. repeat split; lia.
  - cbn [handleMessages bind Monad_Prog]. rewrite run_bind, run_tryCatch.
    destruct (handleMessage_run download msg startTime m s)
      as (m1 & -> & H1 & H2 & H3 & H4).
    cbv zeta. cbn [result final trace fst snd].
    destruct (IH m1 (final (run h (handleMessage wcfg cfg download msg
                                     startTime m) s)))
      as (m' & -> & I1 & I2 & I3 & I4).
    exists m'. split; [reflexivity|].
    cbn [length]. repeat split; lia.
Qed.

(** X27. The listener of [messages.upsert] never throws. A batch of type
    [notify] or [append] counts every message as received, and at most as
    many processed and errors together as it has messages; a batch of
    another type changes no counter and calls nothing. *)
Theorem onMessagesUpsert_accounting (download : Download)
    (messages : list WAMessage) (type : jsstring) (startTime : Z)
    (m : AppMetrics) (s : S) :
  exists m',
    result (run h (onMessagesUpsert wcfg cfg download messages type
                     startTime m) s) = inr m'
    /\ (if eqb type (js "notify") || eqb type (js "append")
        then messagesReceived m' = messagesReceived m
                                   + Z.of_nat (length messages)
        else m' = m
             /\ trace (run h (onMessagesUpsert wcfg cfg download messages
                                type startTime m) s) = [])
    /\ messagesProcessed m <= messagesProcessed m'
    /\ errors m <= errors m'
    /\ (messagesProcessed m' - messagesProcessed m) + (errors m' - errors m)
       <= messagesReceived m' - messagesReceived m.
Proof.
  unfold onMessagesUpsert.
  destruct (eqb type (js "notify")) eqn:E1;
    [|destruct (eqb type (js "append")) eqn:E2]; cbn [negb andb orb].
  - destruct (handleMessages_run download messages startTime m s)
      as (m' & -> & I1 & I2 & I3 & I4).
    exists m'. repeat split; lia.
  - destruct (handleMessages_run download messages startTime m s)
      as (m' & -> & I1 & I2 & I3 & I4).
    exists m'. repeat split; lia.
  - exists m. cbn. repeat split; lia.
Qed.

End Messages.

Section MessageType.
Import WhatsApp.

Lemma has_false (set : list jsstring) (k : jsstring) :
  has set k = false <-> ~ In k set.
Proof.
  unfold has. split.
  - intros H Hin. assert (existsb (eqb k) set = true); [|congruence].
    apply existsb_exists. exists k. split; [exact Hin | apply eqb_refl].
  - intros H. destruct (existsb (eqb k) set) eqn:E; [|reflexivity].
    apply existsb_exists in E. destruct E as (x & Hx & Ex).
    apply eqb_eq in Ex. subst x. contradiction.
Qed.

(** X28. [getMessageType] never answers with one of [IGNORED_MESSAGE_KEYS]:
    the type [senderKeyDistributionMessage], which is also among
    [IGNORED_MESSAGE_TYPES], is never the type of a message. *)
Theorem getMessageType_skips_ignored_keys (message : option IMessage) :
  ~ In (getMessageType message) IGNORED_MESSAGE_KEYS
  /\ getMessageType message <> js "senderKeyDistributionMessage"
  /\ (getMessageType message = js "unknown"
      \/ exists m, message = Some m /\ In (getMessageType message) (keys m)).
Proof.
  assert (Hu : ~ In (js "unknown") IGNORED_MESSAGE_KEYS).
  { apply has_false. vm_compute. reflexivity. }
  assert (H : ~ In (getMessageType message) IGNORED_MESSAGE_KEYS
              /\ (getMessageType message = js "unknown"
                  \/ exists m, message = Some m
                               /\ In (getMessageType message) (keys m))).
  { unfold getMessageType. destruct message as [m|]; [|auto].
    destruct (find _ (keys m)) as [type|] eqn:E; [|auto].
    apply find_some in E. destruct E as [Hin Hn].
    apply negb_true_iff in Hn. apply has_false in Hn. split; [exact Hn|].
    right. exists m. auto. }
  destruct H as [H1 H2]. split; [exact H1|]. split; [|exact H2].
  intros E. apply H1. rewrite E. unfold IGNORED_MESSAGE_KEYS. simpl. auto.
Qed.

End MessageType.

(* ================================================================== *)
(** * The further properties at work *)
(* ================================================================== *)

Lemma planilha_validates_first_witness :
  trace (run Sim.handle
           (planilha exampleConfig (js "Ana") (inl (js "/tmp/recibo.jpg")) None None)
           emptyStore) = []
  /\ result (run Sim.handle
               (planilha exampleConfig (js "Ana") (inl (js "/tmp/recibo.jpg")) None None)
               emptyStore)
     = inl (if truthy (Some (spreadsheetId exampleConfig))
               && truthy (Some (folderId exampleConfig))
            then errNoMonth else errConfig).
Proof.
  apply (@planilha_validates_first tables exampleConfig Sim.World Sim.handle).
  vm_compute. reflexivity.
Defined.

Lemma planilha_not_found_witness :
  result (run Sim.handle
            (planilha exampleConfig (js "Carla") (inr (exampleReceipt (js "Carla_Fev.jpg")))
               (Some (js "Fevereiro")) None) emptyStore)
  = inl (if findRow (flatValues (Some [[Some (js "Ana")]; [Some (js "Bruno")]]))
              (js "Carla") =? -1
         then errRowNotFound exampleConfig (js "Carla")
         else errColumnNotFound
                (match Some (js "Fevereiro") with Some mes => mes | None => [] end))
  /\ length (sheetReads (trace (run Sim.handle
            (planilha exampleConfig (js "Carla") (inr (exampleReceipt (js "Carla_Fev.jpg")))
               (Some (js "Fevereiro")) None) emptyStore))) = 2%nat
  /\ driveCalls (trace (run Sim.handle
            (planilha exampleConfig (js "Carla") (inr (exampleReceipt (js "Carla_Fev.jpg")))
               (Some (js "Fevereiro")) None) emptyStore)) = []
  /\ updates (trace (run Sim.handle
            (planilha exampleConfig (js "Carla") (inr (exampleReceipt (js "Carla_Fev.jpg")))
               (Some (js "Fevereiro")) None) emptyStore)) = [].
Proof.
  apply (@planilha_not_found tables exampleConfig Sim.World Sim.handle
           (js "Carla") (inr (exampleReceipt (js "Carla_Fev.jpg")))
           (Some (js "Fevereiro")) None emptyStore
           (js "Comprovantes!A2:A29") (js "Comprovantes!B1:L1")
           (Some [[Some (js "Ana")]; [Some (js "Bruno")]])
           (Some [[Some (js "Comp - Janeiro"); Some (js "Comp - Fevereiro");
                   Some (js "Comp - Marco")]])).
  - vm_compute. reflexivity.
  - left. vm_compute. reflexivity.
Defined.



Lemma upsert_answers_witness :
  run Sim.handle (upsert exampleConfig (exampleReceipt (js "Ana_Fev.jpg")))
    emptyStore
  = (inr firstRef,
     final (run Sim.handle
              (upsert exampleConfig (exampleReceipt (js "Ana_Fev.jpg")))
              emptyStore),
     trace (run Sim.handle
              (upsert exampleConfig (exampleReceipt (js "Ana_Fev.jpg")))
              emptyStore)).
Proof.
  destruct (upsert_answers exampleConfig Sim.handle
              (exampleReceipt (js "Ana_Fev.jpg")) emptyStore emptyStore
              (Some [])) as [_ H].
  - vm_compute. reflexivity.
  - rewrite (H (or_intror eq_refl)
               (Sim.asDriveFile
                  (Sim.newFile emptyStore (js "Ana_Fev.jpg") (js "folder-1")
                     (js "image/jpeg") []))
               (snd (Sim.handle
                       (DriveCreate (js "Ana_Fev.jpg") (js "folder-1")
                          (js "image/jpeg") []) emptyStore))).
    + vm_compute. reflexivity.
    + vm_compute. reflexivity.
Defined.

Lemma read_image_rejection_witness :
  exists message,
    (ErrorObj (js "Arquivo não encontrado: /tmp/recibo.jpg")
     = errFileNotFound (inl (js "/tmp/recibo.jpg"))
     \/ ErrorObj (js "Arquivo não encontrado: /tmp/recibo.jpg")
        = errGroqApi message
     \/ ErrorObj (js "Arquivo não encontrado: /tmp/recibo.jpg")
        = errGroqNetwork message)
    /\ ((exists path, inl (js "/tmp/recibo.jpg") = @inl jsstring Buffer path
                      /\ readFile (answering (js "Ana")) path
                         = inl (ErrorObj message))
        \/ (exists img,
              createCompletion (answering (js "Ana"))
                (dataUrl (answering (js "Ana")) (js "image/jpeg") img)
              = inl (ErrorObj message))).
Proof.
  apply (@read_image_rejection tables (answering (js "Ana"))
           (inl (js "/tmp/recibo.jpg")) (js "image/jpeg")).
  vm_compute. reflexivity.
Defined.

Lemma read_image_answer_trimmed_witness :
  read_image (answering (js "  Ana Souza ")) (inr [Byte.x01]) (js "image/jpeg")
  = inr (js "Ana Souza")
  /\ trim (js "Ana Souza") = js "Ana Souza".
Proof.
  split; [vm_compute; reflexivity|].
  apply (@read_image_answer_trimmed tables (answering (js "  Ana Souza "))
           (inr [Byte.x01]) (js "image/jpeg")).
  vm_compute. reflexivity.
Defined.

Lemma unclassified_failure_reads_as_not_pix_witness :
  result (run (withVision (failing (js "Connection error.")) Sim.handle)
            (processPixReceipt exampleConfig exampleInput) emptyStore)
  = inr notPixResult
  /\ trace (run (withVision (failing (js "Connection error.")) Sim.handle)
              (processPixReceipt exampleConfig exampleInput) emptyStore)
     = [Ev (ReadImage (imageBuffer exampleInput) (inputMime exampleInput))
          (inr sentinel)].
Proof.
  apply (@unclassified_failure_reads_as_not_pix tables exampleConfig Sim.World
           Sim.handle (failing (js "Connection error.")) exampleInput
           (ErrorObj (js "Connection error."))).
  - reflexivity.
  - intros word Hw. cbn [In classifiedWords] in Hw.
    repeat (destruct Hw as [<- | Hw]; [vm_compute; reflexivity|]).
    destruct Hw.
Defined.


Lemma reconnects_bounded_witness :
  scheduledReconnects
    (snd (WhatsApp.connectionUpdates
            [closeWith 515; closeWith 428; closeWith 408] newSession))
  <= WhatsApp.maxReconnectAttempts - WhatsApp.attempts newSession.
Proof.
  apply (@reconnects_bounded Runtime.host).
  - intros u Hu. cbn [In] in Hu.
    destruct Hu as [<- | [<- | [<- | []]]]; discriminate.
  - vm_compute. discriminate.
Defined.

Lemma close_after_limit_exits_witness :
  snd (WhatsApp.connectionUpdates (repeat (closeWith 428) 11) newSession)
  = repeat (WhatsApp.Returned true)
      (Z.to_nat (WhatsApp.maxReconnectAttempts - WhatsApp.attempts newSession))
    ++ [WhatsApp.Exited 1]
  /\ WhatsApp.attempts
       (fst (WhatsApp.connectionUpdates (repeat (closeWith 428) 11) newSession))
     = WhatsApp.maxReconnectAttempts + 1
  /\ WhatsApp.reconnections
       (WhatsApp.metrics
          (fst (WhatsApp.connectionUpdates (repeat (closeWith 428) 11)
                  newSession)))
     = WhatsApp.reconnections (WhatsApp.metrics newSession)
       + Z.of_nat (length (repeat (closeWith 428) 11))
  /\ WhatsApp.connected
       (WhatsApp.metrics
          (fst (WhatsApp.connectionUpdates (repeat (closeWith 428) 11)
                  newSession)))
     = false.
Proof.
  apply (@close_after_limit_exits Runtime.host).
  - vm_compute. reflexivity.
  - vm_compute. discriminate.
  - vm_compute. reflexivity.
Defined.

Lemma exit_only_on_close_witness :
  1 = 1
  /\ WhatsApp.connection (closeWith 401) = Some WhatsApp.ConnClose
  /\ WhatsApp.connected
       (WhatsApp.metrics
          (fst (WhatsApp.handleConnectionUpdate (closeWith 401) newSession)))
     = false
  /\ ((WhatsApp.extractDisconnectStatusCode
         (WhatsApp.lastDisconnect (closeWith 401)) = loggedOut
       /\ WhatsApp.attempts
            (fst (WhatsApp.handleConnectionUpdate (closeWith 401) newSession))
          = WhatsApp.attempts newSession
       /\ WhatsApp.reconnections
            (WhatsApp.metrics
               (fst (WhatsApp.handleConnectionUpdate (closeWith 401)
                       newSession)))
          = WhatsApp.reconnections (WhatsApp.metrics newSession))
      \/ (WhatsApp.extractDisconnectStatusCode
            (WhatsApp.lastDisconnect (closeWith 401)) <> loggedOut
          /\ WhatsApp.maxReconnectAttempts <= WhatsApp.attempts newSession
          /\ WhatsApp.attempts
               (fst (WhatsApp.handleConnectionUpdate (closeWith 401)
                       newSession))
             = WhatsApp.attempts newSession + 1
          /\ WhatsApp.reconnections
               (WhatsApp.metrics
                  (fst (WhatsApp.handleConnectionUpdate (closeWith 401)
                          newSession)))
             = WhatsApp.reconnections (WhatsApp.metrics newSession) + 1)).
Proof.
  apply (@exit_only_on_close Runtime.host (closeWith 401) newSession).
  vm_compute. reflexivity.
Defined.

Lemma handleMessage_filters_witness :
  WhatsApp.remoteJid (WhatsApp.key exampleMessage)
  = Some (Environment.groupJid exampleSettings)
  /\ Environment.groupJid exampleSettings <> []
  /\ WhatsApp.shouldIgnoreJid (Some (Environment.groupJid exampleSettings))
     = false
  /\ WhatsApp.fromMe (WhatsApp.key exampleMessage) <> Some true
  /\ (WhatsApp.toUnixTimestamp (WhatsApp.messageTimestamp exampleMessage) <= 0
      \/ 1700000000
         <= WhatsApp.toUnixTimestamp (WhatsApp.messageTimestamp exampleMessage))
  /\ has WhatsApp.IGNORED_MESSAGE_TYPES
       (WhatsApp.getMessageType (WhatsApp.message exampleMessage)) = false
  /\ exists image b body o rest,
       WhatsApp.extractImageMessage (WhatsApp.message exampleMessage)
       = Some image
       /\ exampleDownload exampleMessage = inr (Some (b :: body))
       /\ trace exampleHandled
          = Ev (ReadImage (b :: body)
                  (match WhatsApp.mimetype image with
                   | Some mime => mime
                   | None => js "image/jpeg"
                   end)) o :: rest.
Proof.
  apply (@handleMessage_filters tables Runtime.host exampleSettings exampleConfig
           Sim.World Sim.handle exampleDownload exampleMessage 1700000000
           noMetrics emptyStore).
  vm_compute. discriminate.
Defined.

Lemma handleMessage_processed_iff_witness :
  WhatsApp.messagesProcessed (WhatsApp.processed (WhatsApp.received noMetrics))
  = WhatsApp.messagesProcessed noMetrics + 1
  <-> map succeeded (updates (trace exampleHandled)) = [true; true].
Proof.
  apply (@handleMessage_processed_iff tables Runtime.host exampleSettings exampleConfig
           Sim.World Sim.handle exampleDownload exampleMessage 1700000000
           noMetrics (WhatsApp.processed (WhatsApp.received noMetrics))
           emptyStore).
  vm_compute. reflexivity.
Defined.

Lemma health_port_not_replaced_witness :
  exists settings,
    Environment.load exampleEnv = inr settings
    /\ Environment.validateConfig settings
       = inl Environment.errPortNotInteger.
Proof.
  destruct (Environment.load exampleEnv) as [e | settings] eqn:E.
  - vm_compute in E. discriminate.
  - exists settings. split; [reflexivity|].
    apply (health_port_not_replaced exampleEnv [] settings).
    + vm_compute. reflexivity.
    + exact E.
    + vm_compute. reflexivity.
Defined.

Lemma load_defaults_witness :
  exists settings,
    Environment.load requiredOnly = inr settings
    /\ Environment.validateConfig settings = inr tt
    /\ asConfig settings = Some (defaultConfig (js "sheet-1") (js "folder-1"))
    /\ Environment.healthPort (Environment.whatsapp settings)
       = Environment.Finite 3001
    /\ Environment.groupJid (Environment.whatsapp settings) = [].
Proof.
  apply (load_defaults requiredOnly (js "sheet-1") (js "folder-1")).
  - vm_compute. reflexivity.
  - vm_compute. reflexivity.
  - vm_compute. reflexivity.
  - intros name Hn. cbn [In optionalVariables] in Hn.
    repeat (destruct Hn as [<- | Hn]; [vm_compute; reflexivity|]).
    destruct Hn.
Defined.

Lemma getAuthClient_after_load_witness :
  exists client,
    GoogleAuth.getAuthClient
      {| Environment.spreadsheetId := js "sheet-1";
         Environment.folderId := js "folder-1";
         Environment.clientId := js "client";
         Environment.clientSecret := js "secret";
         Environment.refreshToken := js "token";
         Environment.sheetName := js "Comprovantes";
         Environment.mainSheetName := js "Main";
         Environment.redirectUri := js "http://localhost:3000/oauth2callback" |}
      None
    = (inr client, Some client)
    /\ GoogleAuth.credentials client = Some (js "token").
Proof.
  destruct (Environment.load exampleEnv) as [e | settings] eqn:E.
  - vm_compute in E. discriminate.
  - destruct (getAuthClient_after_load exampleEnv settings E)
      as (client & H1 & _ & H2 & _).
    exists client. split.
    + vm_compute in E. injection E as <-. exact H1.
    + rewrite <- H2. vm_compute. reflexivity.
Defined.
